(** * A shallow embedding of [ws.py], the case-dispatching web server

    The development follows the source file top to bottom:

    - [Py]: the few operations of Python's [str] the server uses,
      [urllib.parse.unquote] and [posixpath];
    - [Host]: what the server consumes from the operating system (file
      tests, reads, directory enumeration, child processes), as a record of
      queries, together with a tree-shaped file system implementing it;
    - [Ws]: the classes of [ws.py] ([BaseCase] and its six subclasses,
      [RequestHandler]) over a small output-and-exception monad;
    - the properties of the request-resolution pipeline.

    Strings are [String.string], read as the UTF-8 bytes of the Python [str]:
    [str.encode('utf-8')] is then the identity, [len] of the encoded body is
    [String.length], and the byte-wise order [String.leb] is Python's
    code-point order. *)

From Stdlib Require Import ZArith QArith Ascii String List Bool Lia.
From Stdlib Require Import DecimalString Sorting.Sorted.
From stdpp Require Import base list strings gmap sorting.

Local Open Scope string_scope.
Local Open Scope Z_scope.

(* ===================================================================== *)
(** * Python's string and path primitives *)
(* ===================================================================== *)

Module Py.

(** [s.startswith(p)] *)
Definition startswith (s p : string) : bool := String.prefix p s.

(** [s.endswith(suf)] *)
Fixpoint endswith (s suf : string) : bool :=
  if String.eqb s suf then true
  else match s with
       | EmptyString => false
       | String _ t => endswith t suf
       end.

(** [s.endswith((suf1, suf2, ...))] *)
Definition endswith_any (s : string) (sufs : list string) : bool :=
  existsb (endswith s) sufs.

(** [sub in s] *)
Fixpoint contains (s sub : string) : bool :=
  if String.prefix sub s then true
  else match s with
       | EmptyString => false
       | String _ t => contains t sub
       end.

(** [s.lstrip(c)] for a one-character [c] *)
Fixpoint lstrip (c : ascii) (s : string) : string :=
  match s with
  | EmptyString => EmptyString
  | String a t => if Ascii.eqb a c then lstrip c t else s
  end.

(** [s.rstrip(c)] for a one-character [c] *)
Fixpoint rstrip (c : ascii) (s : string) : string :=
  match s with
  | EmptyString => EmptyString
  | String a t =>
      let t' := rstrip c t in
      if Ascii.eqb a c && String.eqb t' "" then "" else String a t'
  end.

(** [sep.join(items)] *)
Fixpoint join (sep : string) (items : list string) : string :=
  match items with
  | [] => ""
  | [x] => x
  | x :: rest => x ++ sep ++ join sep rest
  end.

(** [s.split(c)] for a one-character [c]; [cur] is the piece being read. *)
Fixpoint split_go (c : ascii) (cur : string) (s : string) : list string :=
  match s with
  | EmptyString => [cur]
  | String a t =>
      if Ascii.eqb a c then cur :: split_go c "" t
      else split_go c (cur ++ String a "") t
  end.

Definition split (c : ascii) (s : string) : list string := split_go c "" s.

(** [str(n)] for an [int]. *)
Definition str (n : Z) : string := NilZero.string_of_int (Z.to_int n).

(** [len(s)] *)
Definition len (s : string) : Z := Z.of_nat (String.length s).

(** ** [urllib.parse.unquote]

    Every [%XY] with two hexadecimal digits becomes the byte [0xXY], in one
    pass; a [%] not followed by two hexadecimal digits stays.  (Python then
    decodes the bytes as UTF-8 with replacement: on a byte sequence that is
    valid UTF-8, all of ASCII in particular, that changes nothing in the
    representation used here.) *)

Definition hexval (c : ascii) : option N :=
  let n := N_of_ascii c in
  if ((48 <=? n) && (n <=? 57))%N then Some (n - 48)%N
  else if ((65 <=? n) && (n <=? 70))%N then Some (n - 55)%N
  else if ((97 <=? n) && (n <=? 102))%N then Some (n - 87)%N
  else None.

Fixpoint unquote (s : string) : string :=
  match s with
  | EmptyString => EmptyString
  | String c t =>
      if Ascii.eqb c "%" then
        match t with
        | String a (String b rest) =>
            match hexval a, hexval b with
            | Some x, Some y => String (ascii_of_N (16 * x + y)) (unquote rest)
            | _, _ => String c (unquote t)
            end
        | _ => String c (unquote t)
        end
      else String c (unquote t)
  end.

(** ** [posixpath] *)

(** [os.path.join(a, b)] *)
Definition path_join (a b : string) : string :=
  if startswith b "/" || String.eqb a "" then b
  else if endswith a "/" then a ++ b
  else a ++ "/" ++ b.

(** [p[:p.rfind('/') + 1]]: the part of [p] up to and including its last
    separator, empty when there is none. *)
Fixpoint upto_last_sep (p : string) : string :=
  match p with
  | EmptyString => EmptyString
  | String a t =>
      let h := upto_last_sep t in
      if negb (String.eqb h "") then String a h
      else if Ascii.eqb a "/" then "/" else ""
  end.

(** [os.path.dirname(p)] *)
Definition dirname (p : string) : string :=
  let head := upto_last_sep p in
  if negb (String.eqb head "") && negb (String.eqb (rstrip "/" head) "")
  then rstrip "/" head
  else head.

(** [os.path.normpath(p)]: the path with [.], empty and [..] segments
    resolved on the string. [stack] is [new_comps], last component first. *)
Fixpoint normpath_comps (rooted : bool) (stack : list string)
    (comps : list string) : list string :=
  match comps with
  | [] => rev stack
  | comp :: rest =>
      if String.eqb comp "" || String.eqb comp "." then
        normpath_comps rooted stack rest
      else if negb (String.eqb comp "..") then
        normpath_comps rooted (comp :: stack) rest
      else
        match stack with
        | [] => if rooted then normpath_comps rooted [] rest
                else normpath_comps rooted [comp] rest
        | top :: below =>
            if String.eqb top ".." then normpath_comps rooted (comp :: stack) rest
            else normpath_comps rooted below rest
        end
  end.

Definition normpath (p : string) : string :=
  if String.eqb p "" then "."
  else
    let slashes :=
      if startswith p "/" then
        if startswith p "//" && negb (startswith p "///") then "//" else "/"
      else "" in
    let body := join "/" (normpath_comps (startswith p "/") [] (split "/" p)) in
    let r := slashes ++ body in
    if String.eqb r "" then "." else r.

(** A path is inside [root] when its normal form is the root's or lies
    strictly beneath it. *)
Definition inside (root p : string) : bool :=
  let r := normpath root in
  let q := normpath p in
  String.eqb q r || startswith q (if endswith r "/" then r else r ++ "/").

End Py.

(* ===================================================================== *)
(** * The host: file system and child processes *)
(* ===================================================================== *)

Module Host.

(** The outcome of a system call: its value, or the text of the [OSError]
    it raises. *)
Inductive sys (A : Type) : Type :=
| Ok (a : A)
| Err (msg : string).
Arguments Ok {A} a.
Arguments Err {A} msg.

(** How a child process behaves when left alone: how long it runs, what it
    has written to its standard output by a given time, and how it ends. *)
Record Child := {
  duration : Q;
  stdout_by : Q -> string;
  child_returncode : Z;
  child_stdout : string;
  child_stderr : string
}.

(** What [ws.py] asks of the operating system. *)
Record OS := {
  getcwd : string;                                   (* os.getcwd() *)
  path_exists : string -> bool;                      (* os.path.exists *)
  path_isfile : string -> bool;                      (* os.path.isfile *)
  path_isdir : string -> bool;                       (* os.path.isdir *)
  path_getsize : string -> sys Z;                    (* os.path.getsize *)
  listdir : string -> sys (list string);             (* os.listdir *)
  read_bytes : string -> sys string;                 (* open(p, 'rb').read() *)
  environ : gmap string string;                      (* os.environ *)
  executable : string;                               (* sys.executable *)
  spawn : list string -> gmap string string -> sys Child
}.

(** ** A tree-shaped file system

    Regular files and directories carry a read permission; [Special] stands
    for what exists but is neither (a device, a socket, a FIFO). *)

#[warnings="-register-all"]
Inductive node : Type :=
| File (readable : bool) (content : string)
| Dir (readable : bool) (children : list (string * node))
| Special.

Fixpoint child_named (name : string) (children : list (string * node)) : option node :=
  match children with
  | [] => None
  | (n, x) :: rest => if String.eqb n name then Some x else child_named name rest
  end.

(** Resolution of the segments of a path, as the kernel does it: [parents]
    are the directories above [cur], nearest first. *)
Fixpoint walk (parents : list node) (cur : node) (segs : list string) : option node :=
  match segs with
  | [] => Some cur
  | seg :: rest =>
      match cur with
      | Dir _ children =>
          if String.eqb seg "" || String.eqb seg "." then walk parents cur rest
          else if String.eqb seg ".." then
            match parents with
            | [] => walk [] cur rest
            | up :: above => walk above up rest
            end
          else
            match child_named seg children with
            | Some x => walk (cur :: parents) x rest
            | None => None
            end
      | _ => None
      end
  end.

Definition stat (root : node) (cwd p : string) : option node :=
  if String.eqb p "" then None
  else if Py.startswith p "/" then walk [] root (Py.split "/" p)
  else walk [] root (Py.split "/" (cwd ++ "/" ++ p)).

Definition errno (what p : string) : string := what ++ ": '" ++ p ++ "'".
Definition ENOENT := errno "[Errno 2] No such file or directory".
Definition EACCES := errno "[Errno 13] Permission denied".
Definition ENOTDIR := errno "[Errno 20] Not a directory".
Definition EISDIR := errno "[Errno 21] Is a directory".
Definition ENXIO := errno "[Errno 6] No such device or address".

Definition tree_os (root : node) (cwd : string)
    (programs : list string -> sys Child) : OS := {|
  getcwd := cwd;
  path_exists p := match stat root cwd p with Some _ => true | None => false end;
  path_isfile p := match stat root cwd p with Some (File _ _) => true | _ => false end;
  path_isdir p := match stat root cwd p with Some (Dir _ _) => true | _ => false end;
  path_getsize p :=
    match stat root cwd p with
    | Some (File _ content) => Ok (Py.len content)
    | Some (Dir _ _) => Ok 4096
    | Some Special => Ok 0
    | None => Err (ENOENT p)
    end;
  listdir p :=
    match stat root cwd p with
    | Some (Dir true children) => Ok (map fst children)
    | Some (Dir false _) => Err (EACCES p)
    | Some _ => Err (ENOTDIR p)
    | None => Err (ENOENT p)
    end;
  read_bytes p :=
    match stat root cwd p with
    | Some (File true content) => Ok content
    | Some (File false _) => Err (EACCES p)
    | Some (Dir _ _) => Err (EISDIR p)
    | Some Special => Err (ENXIO p)
    | None => Err (ENOENT p)
    end;
  environ := {[ "PATH" := "/usr/bin" ]};
  executable := "/usr/bin/python3";
  spawn args _ := programs args
|}.

End Host.

(* ===================================================================== *)
(** * The server *)
(* ===================================================================== *)

Module Ws.
Import Host.

(** ** Exceptions, responses and the effect monad *)

(** The exceptions that occur: [ServerException] of the source, [OSError]
    ([IOError] is its alias), [subprocess.TimeoutExpired], and any other
    subclass of [Exception]. *)
Inductive exn : Type :=
| ServerException (msg : string)
| OSError (msg : string)
| TimeoutExpired (cmd : list string) (timeout : Q) (output : string)
| OtherException (msg : string).

Definition quote : string := String (ascii_of_N 34) "".
Definition nl : string := String (ascii_of_N 10) "".

(** [str(exc)]. For [TimeoutExpired] the timeout is the constant of
    [run_cgi], the only one the server passes. *)
Definition str_exn (e : exn) : string :=
  match e with
  | ServerException msg | OSError msg | OtherException msg => msg
  | TimeoutExpired cmd _ _ =>
      "Command '[" ++ Py.join ", " (map (fun a => "'" ++ a ++ "'") cmd)
      ++ "]' timed out after 30 seconds"
  end.

(** What one call of [send_content] puts on the wire. *)
Record Response := {
  status : Z;
  headers : list (string * string);
  body : string
}.

(** A computation writes responses and then returns or raises. *)
Definition M (A : Type) : Type := (list Response * (exn + A))%type.

Definition ret {A} (a : A) : M A := ([], inr a).
Definition raise {A} (e : exn) : M A := ([], inl e).
Definition write (r : Response) : M unit := ([r], inr tt).

Definition bind {A B} (m : M A) (k : A -> M B) : M B :=
  match m with
  | (out, inl e) => (out, inl e)
  | (out, inr a) => let (out', r) := k a in ((out ++ out')%list, r)
  end.

Notation "'do' x <- m ; k" := (bind m (fun x => k))
  (at level 10, x name, m at level 100, k at level 200).
Notation "m ;; k" := (bind m (fun _ => k))
  (at level 100, k at level 200, right associativity).

(** [try: m except ...]: [clauses e] is the body of the first [except]
    clause that matches [e], [None] when none does. *)
Definition try_except {A} (m : M A) (clauses : exn -> option (M A)) : M A :=
  match m with
  | (out, inl e) =>
      match clauses e with
      | Some h => let (out', r) := h in ((out ++ out')%list, r)
      | None => m
      end
  | _ => m
  end.

Definition of_sys {A} (x : sys A) : M A :=
  match x with
  | Ok a => ret a
  | Err msg => raise (OSError msg)
  end.

Definition raised {A} (m : M A) : option exn :=
  match snd m with inl e => Some e | inr _ => None end.

(** ** [subprocess.run(cmd, capture_output=True, text=True, env=env,
       timeout=t)] *)

Record CompletedProcess := {
  returncode : Z;
  stdout : string;
  stderr : string
}.

Definition subprocess_run (os : OS) (cmd : list string)
    (env : gmap string string) (timeout : Q) : M CompletedProcess :=
  match spawn os cmd env with
  | Err msg => raise (OSError msg)
  | Ok child =>
      if Qle_bool (duration child) timeout then
        ret {| returncode := child_returncode child;
               stdout := child_stdout child;
               stderr := child_stderr child |}
      else raise (TimeoutExpired cmd timeout (stdout_by child timeout))
  end.

(** ** The request handler's state *)

Record Handler := {
  path : string;            (* self.path *)
  full_path : string;       (* self.full_path *)
  server_name : string;     (* self.server.server_name *)
  server_port : Z           (* self.server.server_port *)
}.

Definition set_path (h : Handler) (p : string) : Handler :=
  {| path := p; full_path := full_path h;
     server_name := server_name h; server_port := server_port h |}.

Definition set_full_path (h : Handler) (p : string) : Handler :=
  {| path := path h; full_path := p;
     server_name := server_name h; server_port := server_port h |}.

(** A request as the transport delivers it. *)
Definition request (raw : string) : Handler :=
  {| path := raw; full_path := ""; server_name := "localhost"; server_port := 8080 |}.

(** ** Templates *)

(** [error_page.format(path=path, msg=msg)] *)
Definition error_page (path msg : string) : string :=
  nl ++ "    <html>" ++
  nl ++ "    <head><title>Error</title></head>" ++
  nl ++ "    <body>" ++
  nl ++ "        <h1>Error accessing " ++ path ++ "</h1>" ++
  nl ++ "        <p>" ++ msg ++ "</p>" ++
  nl ++ "        <hr>" ++
  nl ++ "        <p><em>Simple Python Web Server</em></p>" ++
  nl ++ "    </body>" ++
  nl ++ "    </html>" ++
  nl ++ "    ".

(** [listing_page.format(path=path, entries=entries)] *)
Definition listing_page (path entries : string) : string :=
  nl ++ "    <html>" ++
  nl ++ "    <head><title>Directory: " ++ path ++ "</title></head>" ++
  nl ++ "    <body>" ++
  nl ++ "        <h1>Directory: " ++ path ++ "</h1>" ++
  nl ++ "        <ul>" ++
  nl ++ "        " ++ entries ++
  nl ++ "        </ul>" ++
  nl ++ "        <hr>" ++
  nl ++ "        <p><em>Simple Python Web Server</em></p>" ++
  nl ++ "    </body>" ++
  nl ++ "    </html>" ++
  nl ++ "    ".

(** ** [RequestHandler.send_content] and [handle_error] *)

Definition content_type (path : string) : string :=
  if Py.endswith path ".html" || Py.endswith path ".htm" then "text/html"
  else if Py.endswith path ".css" then "text/css"
  else if Py.endswith path ".js" then "application/javascript"
  else if Py.endswith path ".json" then "application/json"
  else if Py.endswith_any path [".jpg"; ".jpeg"] then "image/jpeg"
  else if Py.endswith path ".png" then "image/png"
  else if Py.endswith path ".gif" then "image/gif"
  else "text/html".

Definition send_content (h : Handler) (content : string) (status : Z) : M unit :=
  write {| status := status;
           headers := [("Content-Type", content_type (path h));
                       ("Content-Length", Py.str (Py.len content))];
           body := content |}.

Definition handle_error (h : Handler) (msg : string) : M unit :=
  let content := error_page (path h) msg in
  send_content h content 404.

(** ** [RequestHandler.format_size]

    The running value is an [int] at first and a [float] once divided.  A
    division by 1024 is exact in binary floating point, so below [2^53] the
    running value is the rational computed here. *)

(** Rounding of [n / d] to an integer, ties to even ([0 < d]). *)
Definition round_half_even (n d : Z) : Z :=
  let q := n / d in
  let r := n mod d in
  if 2 * r <? d then q
  else if d <? 2 * r then q + 1
  else if Z.even q then q else q + 1.

(** [f"{x:.1f}"] for [0 <= x]. *)
Definition fmt_1f (x : Q) : string :=
  let tenths := round_half_even (10 * Qnum x) (Zpos (Qden x)) in
  Py.str (tenths / 10) ++ "." ++ Py.str (tenths mod 10).

Definition Qltb (x y : Q) : bool := negb (Qle_bool y x).

Fixpoint format_size_loop (units : list string) (size : Q) : string :=
  match units with
  | [] => fmt_1f size ++ " TB"
  | unit :: rest =>
      if Qltb size 1024 then fmt_1f size ++ " " ++ unit
      else format_size_loop rest (size / 1024)%Q
  end.

Definition format_size (size : Z) : string :=
  format_size_loop ["B"; "KB"; "MB"; "GB"] (inject_Z size).

(** ** [RequestHandler.list_dir] *)

Definition hidden (entry : string) : bool := Py.startswith entry ".".

(** The link to the parent directory. *)
Definition parent_item (path : string) : string :=
  let parent_path := Py.dirname (Py.rstrip "/" path) in
  let parent_path := if String.eqb parent_path "" then "/" else parent_path in
  "<li><a href=" ++ quote ++ parent_path ++ quote ++ ">../</a></li>".

Definition dir_item (url_path entry : string) : string :=
  "<li><a href=" ++ quote ++ url_path ++ "/" ++ quote ++ ">" ++ entry ++ "/</a></li>".

Definition file_item (url_path entry size_str : string) : string :=
  "<li><a href=" ++ quote ++ url_path ++ quote ++ ">" ++ entry ++ "</a> ("
  ++ size_str ++ ")</li>".

(** The [for entry in entries] loop; [listing_items] is the list being
    appended to. *)
Fixpoint list_dir_loop (os : OS) (h : Handler) (full_path : string)
    (entries : list string) (listing_items : list string) : M (list string) :=
  match entries with
  | [] => ret listing_items
  | entry :: rest =>
      if hidden entry then list_dir_loop os h full_path rest listing_items
      else
        let entry_path := Py.path_join full_path entry in
        let url_path := Py.rstrip "/" (path h) ++ "/" ++ entry in
        if path_isdir os entry_path then
          list_dir_loop os h full_path rest
            (listing_items ++ [dir_item url_path entry])%list
        else
          do size <- of_sys (path_getsize os entry_path);
          let size_str := format_size size in
          list_dir_loop os h full_path rest
            (listing_items ++ [file_item url_path entry size_str])%list
  end.

Definition list_dir (os : OS) (h : Handler) (full_path : string) : M unit :=
  try_except
    (do entries <- of_sys (listdir os full_path);
     let entries := merge_sort String.le entries in
     let listing_items :=
       if negb (String.eqb (path h) "/") then [parent_item (path h)] else [] in
     do listing_items <- list_dir_loop os h full_path entries listing_items;
     let entries_html := Py.join (nl ++ "        ") listing_items in
     let page := listing_page (path h) entries_html in
     send_content h page 200)
    (fun e =>
       match e with
       | OSError msg =>
           Some (handle_error h ("'" ++ path h ++ "' cannot be listed: " ++ msg))
       | _ => None
       end).

(** ** [RequestHandler.run_cgi] *)

Definition cgi_timeout : Q := 30.

Definition cgi_env (os : OS) (h : Handler) : gmap string string :=
  <["SERVER_PORT" := Py.str (server_port h)]>
    (<["SERVER_NAME" := server_name h]>
       (<["PATH_INFO" := path h]>
          (<["REQUEST_METHOD" := "GET"]> (environ os)))).

Definition run_cgi (os : OS) (h : Handler) (full_path : string) : M unit :=
  try_except
    (let env := cgi_env os h in
     do result <- subprocess_run os [executable os; full_path] env cgi_timeout;
     if returncode result =? 0 then send_content h (stdout result) 200
     else
       let error_msg := "CGI script error: " ++ stderr result in
       handle_error h error_msg)
    (fun e =>
       match e with
       | TimeoutExpired _ _ _ => Some (handle_error h "CGI script timed out")
       | _ => Some (handle_error h ("Cannot execute CGI script: " ++ str_exn e))
       end).

(** ** [BaseCase] and its subclasses *)

Definition handle_file (os : OS) (h : Handler) (full_path : string) : M unit :=
  try_except
    (do content <- of_sys (read_bytes os full_path);
     send_content h content 200)
    (fun e =>
       match e with
       | OSError msg =>
           let error_msg := "'" ++ full_path ++ "' cannot be read: " ++ msg in
           Some (handle_error h error_msg)
       | _ => None
       end).

Definition index_path (h : Handler) : string :=
  Py.path_join (full_path h) "index.html".

Inductive Case : Type :=
| CaseNoFile
| CaseExistingFile
| CaseDirectoryIndexFile
| CaseDirectoryNoIndex
| CaseCgiFile
| CaseAlwaysFail.

Definition test (os : OS) (h : Handler) (c : Case) : bool :=
  match c with
  | CaseNoFile => negb (path_exists os (full_path h))
  | CaseExistingFile => path_isfile os (full_path h)
  | CaseDirectoryIndexFile =>
      path_isdir os (full_path h) && path_isfile os (index_path h)
  | CaseDirectoryNoIndex =>
      path_isdir os (full_path h) && negb (path_isfile os (index_path h))
  | CaseCgiFile =>
      path_isfile os (full_path h) && Py.endswith (full_path h) ".py"
  | CaseAlwaysFail => true
  end.

Definition act (os : OS) (h : Handler) (c : Case) : M unit :=
  match c with
  | CaseNoFile => raise (ServerException ("'" ++ path h ++ "' not found"))
  | CaseExistingFile => handle_file os h (full_path h)
  | CaseDirectoryIndexFile => handle_file os h (index_path h)
  | CaseDirectoryNoIndex => list_dir os h (full_path h)
  | CaseCgiFile => run_cgi os h (full_path h)
  | CaseAlwaysFail => raise (ServerException ("Unknown object '" ++ path h ++ "'"))
  end.

(** ** [RequestHandler.cases] and [do_GET] *)

Definition cases : list Case :=
  [CaseNoFile; CaseCgiFile; CaseExistingFile; CaseDirectoryIndexFile;
   CaseDirectoryNoIndex; CaseAlwaysFail].

(** The two assignments that open [do_GET]. *)
Definition decode (os : OS) (h : Handler) : Handler :=
  let h := set_path h (Py.unquote (path h)) in
  set_full_path h (Py.path_join (getcwd os) (Py.lstrip "/" (path h))).

(** [if not self.full_path.startswith(os.getcwd()): raise ...] *)
Definition sandbox_check (os : OS) (h : Handler) : M unit :=
  if negb (Py.startswith (full_path h) (getcwd os))
  then raise (ServerException "Access denied")
  else ret tt.

(** [for case in cases: if case.test(self): case.act(self); break] *)
Fixpoint dispatch (os : OS) (h : Handler) (cs : list Case) : M unit :=
  match cs with
  | [] => ret tt
  | case :: rest =>
      if test os h case then act os h case else dispatch os h rest
  end.

(** The body of the [try] of [do_GET], after the two assignments. *)
Definition do_GET_try (os : OS) (h : Handler) : M unit :=
  sandbox_check os h ;; dispatch os h cases.

Definition do_GET (os : OS) (h : Handler) : M unit :=
  let h := decode os h in
  try_except (do_GET_try os h) (fun e => Some (handle_error h (str_exn e))).

End Ws.

(* ===================================================================== *)
(** * A concrete site *)
(* ===================================================================== *)

(** A document root [/srv/www] with static files, three scripts, a hidden
    directory, an unreadable file and a device node, and a file outside the
    root. *)

Module Site.
Import Host Ws.

Definition quick (rc : Z) (out err : string) : Child :=
  {| duration := 1; stdout_by := fun _ => out;
     child_returncode := rc; child_stdout := out; child_stderr := err |}.

(** Prints a line at once, then sleeps past any deadline under 45. *)
Definition sleeper : Child :=
  {| duration := 45;
     stdout_by := fun t => if Qle_bool 1 t then "started" else "";
     child_returncode := 0; child_stdout := "started"; child_stderr := "" |}.

Definition programs (cmd : list string) : sys Child :=
  match cmd with
  | [_; script] =>
      if String.eqb script "/srv/www/time.py" then Ok (quick 0 "12:00" "")
      else if String.eqb script "/srv/www/bad.py" then Ok (quick 3 "secret" "Traceback")
      else if String.eqb script "/srv/www/slow.py" then Ok sleeper
      else Err (ENOENT script)
  | _ => Err "[Errno 2] No such file or directory"
  end.

Definition www : node :=
  Dir true [("zeta.txt", File true "zz");
            ("index.htm", File true "<p>");
            (".git", Dir true []);
            ("Docs", Dir true [("index.html", File true "idx")]);
            ("time.py", File true "print(1)");
            ("bad.py", File true "exit(3)");
            ("slow.py", File true "sleep(45)");
            ("locked", File false "x");
            ("dev", Special);
            ("big.bin", File true "0123456789")].

Definition root : node :=
  Dir true [("etc", Dir true [("passwd", File true "root:x:0:0")]);
            ("srv", Dir true [("www", www)])].

Definition os : OS := tree_os root "/srv/www" programs.


End Site.

(** Two variants of the site. *)

Module Race.
Import Host Ws.

(** The site when [bad.py] is deleted after the directory was enumerated:
    the name is still listed, its size can no longer be asked. *)
Definition os : OS := {|
  getcwd := getcwd Site.os;
  path_exists := path_exists Site.os;
  path_isfile := path_isfile Site.os;
  path_isdir := path_isdir Site.os;
  path_getsize p :=
    if String.eqb p "/srv/www/bad.py" then Err (ENOENT p)
    else path_getsize Site.os p;
  listdir := listdir Site.os;
  read_bytes := read_bytes Site.os;
  environ := environ Site.os;
  executable := executable Site.os;
  spawn := spawn Site.os
|}.

(** The site when directories are enumerated in the opposite order. *)
Definition backwards : OS := {|
  getcwd := getcwd Site.os;
  path_exists := path_exists Site.os;
  path_isfile := path_isfile Site.os;
  path_isdir := path_isdir Site.os;
  path_getsize := path_getsize Site.os;
  listdir p :=
    match listdir Site.os p with
    | Ok entries => Ok (rev entries)
    | Err msg => Err msg
    end;
  read_bytes := read_bytes Site.os;
  environ := environ Site.os;
  executable := executable Site.os;
  spawn := spawn Site.os
|}.

End Race.

(* ===================================================================== *)
(** * [create_sample_files] *)
(* ===================================================================== *)

(** The function works in the current directory, seen here as a finite map
    from names to what they name.  It is assumed that the directory can be
    written to. *)

Module Samples.
Import Host Ws.

(** The three texts written, line by line. *)

Definition index_html : string :=
  Py.join nl
    ["<!DOCTYPE html>";
     "<html>";
     "<head>";
     "    <title>Simple Python Web Server</title>";
     "    <style>";
     "        body { font-family: Arial, sans-serif; margin: 40px; }";
     "        h1 { color: #333; }";
     "        .info { background: #f0f0f0; padding: 20px; border-radius: 5px; }";
     "    </style>";
     "</head>";
     "<body>";
     "    <h1>Welcome to Simple Python Web Server!</h1>";
     ("    <div class=" ++ quote ++ "info" ++ quote ++ ">");
     "        <p>This server demonstrates:</p>";
     "        <ul>";
     "            <li>Serving static HTML files</li>";
     "            <li>Directory listings</li>";
     "            <li>CGI script execution</li>";
     "            <li>Clean, extensible architecture</li>";
     "        </ul>";
     "        <p>Try visiting:</p>";
     "        <ul>";
     ("            <li><a href=" ++ quote ++ "/time.py" ++ quote ++ ">/time.py</a> - Dynamic time display</li>");
     ("            <li><a href=" ++ quote ++ "/info.py" ++ quote ++ ">/info.py</a> - Server information</li>");
     "        </ul>";
     "    </div>";
     "</body>";
     "</html>"].

Definition time_py : string :=
  Py.join nl
    ["#!/usr/bin/env python3";
     "from datetime import datetime";
     "";
     "print('''<!DOCTYPE html>";
     "<html>";
     "<head>";
     "    <title>Current Time</title>";
     "    <style>";
     "        body { font-family: Arial, sans-serif; margin: 40px; }";
     "        .time { font-size: 24px; color: #2c5aa0; font-weight: bold; }";
     "    </style>";
     "</head>";
     "<body>";
     "    <h1>Current Server Time</h1>";
     ("    <p class=" ++ quote ++ "time" ++ quote ++ ">{}</p>");
     ("    <p><a href=" ++ quote ++ "/" ++ quote ++ ">← Back to home</a></p>");
     "</body>";
     ("</html>'''.format(datetime.now().strftime(" ++ quote ++ "%Y-%m-%d %H:%M:%S" ++ quote ++ ")))");
     ""].

Definition info_py : string :=
  Py.join nl
    ["#!/usr/bin/env python3";
     "import os";
     "import sys";
     "";
     "print('''<!DOCTYPE html>";
     "<html>";
     "<head>";
     "    <title>Server Info</title>";
     "    <style>";
     "        body { font-family: Arial, sans-serif; margin: 40px; }";
     "        table { border-collapse: collapse; width: 100%; }";
     "        th, td { border: 1px solid #ddd; padding: 8px; text-align: left; }";
     "        th { background-color: #f2f2f2; }";
     "    </style>";
     "</head>";
     "<body>";
     "    <h1>Server Information</h1>";
     "    <table>";
     "        <tr><th>Property</th><th>Value</th></tr>";
     "        <tr><td>Python Version</td><td>{}</td></tr>";
     "        <tr><td>Working Directory</td><td>{}</td></tr>";
     "        <tr><td>Path Info</td><td>{}</td></tr>";
     "        <tr><td>Server Name</td><td>{}</td></tr>";
     "        <tr><td>Server Port</td><td>{}</td></tr>";
     "    </table>";
     ("    <p><a href=" ++ quote ++ "/" ++ quote ++ ">← Back to home</a></p>");
     "</body>";
     "</html>'''.format(";
     "    sys.version,";
     "    os.getcwd(),";
     "    os.environ.get('PATH_INFO', 'Not set'),";
     "    os.environ.get('SERVER_NAME', 'Not set'),";
     "    os.environ.get('SERVER_PORT', 'Not set')";
     "))";
     ""].

(** [os.path.exists(name)] for a name in the current directory. *)
Definition exists_in (d : gmap string node) (name : string) : bool :=
  match d !! name with
  | Some _ => true
  | None => false
  end.

(** [with open(name, 'w') as f: f.write(text)] *)
Definition write_text (d : gmap string node) (name text : string) : gmap string node :=
  <[name := File true text]> d.

Definition create_sample_files (d : gmap string node) : gmap string node :=
  let d := if negb (exists_in d "index.html")
           then write_text d "index.html" index_html else d in
  let d := if negb (exists_in d "time.py")
           then write_text d "time.py" time_py else d in
  let d := if negb (exists_in d "info.py")
           then write_text d "info.py" info_py else d in
  d.


End Samples.

(* ===================================================================== *)
(** * Vocabulary of the properties *)
(* ===================================================================== *)

Import Host Ws.

(** A computation that writes exactly one response and returns. *)
Definition responds {A} (m : M A) : Prop := exists r a, m = ([r], inr a).







(** A computation that answers with one call of [send_content], with
    status 200 or 404. *)
Definition answers (h : Handler) (m : M unit) : Prop :=
  exists content st,
    m = send_content h content st /\ (st = 200 \/ st = 404).

(* ===================================================================== *)
(** * Properties *)
(* ===================================================================== *)

(** ** Strings and paths *)

Section StringFacts.

Lemma prefix_cons (a b : ascii) (s t : string) :
  String.prefix (String a s) (String b t)
  = if ascii_dec a b then String.prefix s t else false.
Proof. reflexivity. Qed.

Lemma append_cons (c : ascii) (a b : string) :
  String c a ++ b = String c (a ++ b).
Proof. reflexivity. Qed.

Lemma append_nil_l (b : string) : "" ++ b = b.
Proof. reflexivity. Qed.

Lemma prefix_app (a b : string) : String.prefix a (a ++ b) = true.
Proof.
  induction a as [|c a IH].
  - now destruct b.
  - rewrite append_cons, prefix_cons.
    destruct (ascii_dec c c); [exact IH | congruence].
Qed.

Lemma prefix_empty (s : string) : String.prefix "" s = true.
Proof. now destruct s. Qed.

Lemma lstrip_no_sep (s : string) :
  Py.startswith (Py.lstrip "/" s) "/" = false.
Proof.
  unfold Py.startswith.
  induction s as [|c s IH]; [reflexivity|].
  cbn [Py.lstrip]. destruct (Ascii.eqb c "/") eqn:E; [exact IH|].
  change "/" with (String "/"%char "") at 1. rewrite prefix_cons.
  destruct (ascii_dec "/" c) as [<-|]; [|reflexivity].
  now rewrite Ascii.eqb_refl in E.
Qed.

Lemma contains_unfold (s sub : string) :
  Py.contains s sub
  = if String.prefix sub s then true
    else match s with
         | EmptyString => false
         | String _ t => Py.contains t sub
         end.
Proof. now destruct s. Qed.

Lemma contains_head (sub b : string) : Py.contains (sub ++ b) sub = true.
Proof. now rewrite contains_unfold, prefix_app. Qed.

Lemma contains_app_r (a t sub : string) :
  Py.contains t sub = true -> Py.contains (a ++ t) sub = true.
Proof.
  intros H. induction a as [|c a IH]; [exact H|].
  rewrite append_cons, contains_unfold, IH.
  now destruct (String.prefix sub _).
Qed.

(** A relative second argument is appended to the first. *)
Lemma path_join_relative (a b : string) :
  Py.startswith b "/" = false ->
  Py.startswith (Py.path_join a b) a = true.
Proof.
  intros Hb. unfold Py.path_join, Py.startswith in *. rewrite Hb. simpl.
  destruct (String.eqb_spec a "") as [->|_].
  - apply prefix_empty.
  - destruct (Py.endswith a "/"); apply prefix_app.
Qed.

Lemma full_path_startswith_cwd (os : OS) (h : Handler) :
  Py.startswith (full_path (decode os h)) (getcwd os) = true.
Proof. apply path_join_relative, lstrip_no_sep. Qed.

End StringFacts.

(** ** The tree file system answers consistently *)

Section TreeFacts.
Variable root : node.
Variable cwd : string.
Variable programs : list string -> sys Child.
Let os := tree_os root cwd programs.

Lemma tree_isfile_exists (p : string) :
  path_isfile os p = true -> path_exists os p = true.
Proof. cbn. now destruct (stat root cwd p) as [[]|]. Qed.

Lemma tree_isdir_exists (p : string) :
  path_isdir os p = true -> path_exists os p = true.
Proof. cbn. now destruct (stat root cwd p) as [[]|]. Qed.

Lemma tree_isfile_not_isdir (p : string) :
  path_isfile os p = true -> path_isdir os p = false.
Proof. cbn. now destruct (stat root cwd p) as [[]|]. Qed.

Lemma tree_exists_getsize (p : string) :
  path_exists os p = true -> exists n, path_getsize os p = Ok n /\ 0 <= n.
Proof.
  cbn. destruct (stat root cwd p) as [[r c|r ch|]|]; [| | |discriminate];
    intros _; eexists; (split; [reflexivity|]); unfold Py.len; lia.
Qed.

Lemma tree_isfile_read (p : string) :
  path_isfile os p = true ->
  (exists content, read_bytes os p = Ok content)
  \/ read_bytes os p = Err (EACCES p).
Proof. cbn. destruct (stat root cwd p) as [[[] c| |]|]; try discriminate; eauto. Qed.

End TreeFacts.

(** ** The primitives on examples *)

Example unquote_decodes_once :
  map Py.unquote ["/%2e%2E/a%20b%zz%4"; "%%41"; "%2"; "%252e"]
  = ["/../a b%zz%4"; "%A"; "%2"; "%2e"].
Proof. reflexivity. Qed.

Example path_join_examples :
  [Py.path_join "/srv/www" ""; Py.path_join "/srv/www" "a/b";
   Py.path_join "/srv/www/" "x"; Py.path_join "" "x"; Py.path_join "/srv" "/x"]
  = ["/srv/www/"; "/srv/www/a/b"; "/srv/www/x"; "x"; "/x"].
Proof. reflexivity. Qed.

Example normpath_examples :
  map Py.normpath ["/srv/www/../../etc//./passwd"; "//a/../.."; "a/../../b";
                   "///x"; "/srv/www/"; ""]
  = ["/etc/passwd"; "//"; "../b"; "/x"; "/srv/www"; "."].
Proof. reflexivity. Qed.

Example dirname_examples :
  map Py.dirname ["/a/b"; "/a"; "a"; "//"; "/a//b"; ""]
  = ["/a"; "/"; ""; "//"; "/a"; ""].
Proof. reflexivity. Qed.

Example strip_examples :
  [Py.rstrip "/" "/a/b//"; Py.rstrip "/" "//"; Py.lstrip "/" "///a"]
  = ["/a/b"; ""; "a"].
Proof. reflexivity. Qed.

Example endswith_examples :
  map (fun s => Py.endswith s ".py") ["a.py"; ".py"; "py"; "a.pyc"; ""]
  = [true; true; false; false; false].
Proof. reflexivity. Qed.

Example str_examples : map Py.str [0; 17; -5] = ["0"; "17"; "-5"].
Proof. reflexivity. Qed.

Example inside_examples :
  map (Py.inside "/srv/www") ["/srv/www"; "/srv/www/a/../b"; "/srv/wwwx"; "/srv/www/.."]
  = [true; true; false; false].
Proof. reflexivity. Qed.

Example format_size_examples :
  map format_size [0; 1023; 1024; 1280; 1331; 1048575; 1073741824;
                   1099511627776; 1125899906842624]
  = ["0.0 B"; "1023.0 B"; "1.0 KB"; "1.2 KB"; "1.3 KB"; "1024.0 KB"; "1.0 GB";
     "1.0 TB"; "1024.0 TB"].
Proof. reflexivity. Qed.

Example sort_is_by_code_point :
  merge_sort String.le ["zeta.txt"; "index.htm"; ".git"; "Docs"; "bad.py"]
  = [".git"; "Docs"; "bad.py"; "index.htm"; "zeta.txt"].
Proof. reflexivity. Qed.

(** ** The monad *)

Section MonadFacts.

Lemma bind_ret_l {A B} (a : A) (k : A -> M B) : bind (ret a) k = k a.
Proof. unfold bind, ret. now destruct (k a). Qed.

Lemma bind_raise {A B} (e : exn) (k : A -> M B) : bind (raise e) k = raise e.
Proof. reflexivity. Qed.

Lemma try_except_returns {A} (out : list Response) (a : A) clauses :
  try_except (out, inr a) clauses = (out, inr a).
Proof. reflexivity. Qed.

Lemma try_except_caught {A} (e : exn) (clauses : exn -> option (M A)) (hd : M A) :
  clauses e = Some hd -> try_except (raise e) clauses = hd.
Proof. intros E. unfold try_except, raise. rewrite E. now destruct hd. Qed.

Lemma try_except_uncaught {A} (e : exn) (clauses : exn -> option (M A)) :
  clauses e = None -> try_except (raise e) clauses = raise e.
Proof. intros E. unfold try_except, raise. now rewrite E. Qed.

End MonadFacts.

(** ** What each method writes and raises *)

Section Outcomes.
Variable os : OS.
Variable h : Handler.

Lemma send_content_eq (content : string) (st : Z) :
  send_content h content st
  = ([{| status := st;
         headers := [("Content-Type", content_type (path h));
                     ("Content-Length", Py.str (Py.len content))];
         body := content |}], inr tt).
Proof. reflexivity. Qed.

Lemma handle_error_eq (msg : string) :
  handle_error h msg = send_content h (error_page (path h) msg) 404.
Proof. reflexivity. Qed.

Lemma send_content_responds (content : string) (st : Z) :
  responds (send_content h content st).
Proof. rewrite send_content_eq. now eexists _, _. Qed.

Lemma handle_error_responds (msg : string) : responds (handle_error h msg).
Proof. apply send_content_responds. Qed.

Lemma handle_file_read (p content : string) :
  read_bytes os p = Ok content ->
  handle_file os h p = send_content h content 200.
Proof. intros E. unfold handle_file. now rewrite E. Qed.

Lemma handle_file_unreadable (p msg : string) :
  read_bytes os p = Err msg ->
  handle_file os h p = handle_error h ("'" ++ p ++ "' cannot be read: " ++ msg).
Proof. intros E. unfold handle_file. now rewrite E. Qed.

Lemma handle_file_responds (p : string) : responds (handle_file os h p).
Proof.
  destruct (read_bytes os p) as [c|msg] eqn:E.
  - rewrite (handle_file_read _ _ E). apply send_content_responds.
  - rewrite (handle_file_unreadable _ _ E). apply handle_error_responds.
Qed.

(** The loop of [list_dir] writes nothing; it returns the items or raises
    the [OSError] of a failed [getsize]. *)
Lemma list_dir_loop_outcome (fp : string) (entries items : list string) :
  (exists items', list_dir_loop os h fp entries items = ret items')
  \/ (exists msg, list_dir_loop os h fp entries items = raise (OSError msg)).
Proof.
  revert items. induction entries as [|entry rest IH]; intros items.
  - left. now exists items.
  - cbn [list_dir_loop]. destruct (hidden entry); [apply IH|].
    destruct (path_isdir os _); [apply IH|].
    destruct (path_getsize os _) as [size|msg].
    + cbn [of_sys]. rewrite bind_ret_l. apply IH.
    + right. now exists msg.
Qed.

Lemma list_dir_responds (fp : string) : responds (list_dir os h fp).
Proof.
  unfold list_dir.
  destruct (listdir os fp) as [entries|msg]; cbn [of_sys].
  - rewrite bind_ret_l.
    destruct (list_dir_loop_outcome fp (merge_sort String.le entries)
                (if negb (String.eqb (path h) "/") then [parent_item (path h)] else []))
      as [[items ->]|[msg ->]].
    + rewrite bind_ret_l. apply send_content_responds.
    + rewrite bind_raise. erewrite try_except_caught by reflexivity.
      apply handle_error_responds.
  - rewrite bind_raise. erewrite try_except_caught by reflexivity.
    apply handle_error_responds.
Qed.

Lemma subprocess_run_outcome (cmd : list string) (env : gmap string string) (t : Q) :
  match spawn os cmd env with
  | Err msg => subprocess_run os cmd env t = raise (OSError msg)
  | Ok child =>
      if Qle_bool (duration child) t
      then subprocess_run os cmd env t
           = ret {| returncode := child_returncode child;
                    stdout := child_stdout child;
                    stderr := child_stderr child |}
      else subprocess_run os cmd env t
           = raise (TimeoutExpired cmd t (stdout_by child t))
  end.
Proof.
  unfold subprocess_run. destruct (spawn os cmd env) as [child|msg]; [|reflexivity].
  now destruct (Qle_bool (duration child) t).
Qed.

Lemma run_cgi_completed (fp : string) (child : Child) :
  spawn os [executable os; fp] (cgi_env os h) = Ok child ->
  Qle_bool (duration child) cgi_timeout = true ->
  run_cgi os h fp
  = if child_returncode child =? 0
    then send_content h (child_stdout child) 200
    else handle_error h ("CGI script error: " ++ child_stderr child).
Proof.
  intros E T. unfold run_cgi.
  pose proof (subprocess_run_outcome [executable os; fp] (cgi_env os h) cgi_timeout) as R.
  rewrite E, T in R. rewrite R, bind_ret_l. cbn [returncode stdout stderr].
  now destruct (child_returncode child =? 0).
Qed.

Lemma run_cgi_timed_out (fp : string) (child : Child) :
  spawn os [executable os; fp] (cgi_env os h) = Ok child ->
  Qle_bool (duration child) cgi_timeout = false ->
  run_cgi os h fp = handle_error h "CGI script timed out".
Proof.
  intros E T. unfold run_cgi.
  pose proof (subprocess_run_outcome [executable os; fp] (cgi_env os h) cgi_timeout) as R.
  rewrite E, T in R. rewrite R, bind_raise.
  now erewrite try_except_caught by reflexivity.
Qed.

Lemma run_cgi_not_launched (fp msg : string) :
  spawn os [executable os; fp] (cgi_env os h) = Err msg ->
  run_cgi os h fp = handle_error h ("Cannot execute CGI script: " ++ msg).
Proof.
  intros E. unfold run_cgi.
  pose proof (subprocess_run_outcome [executable os; fp] (cgi_env os h) cgi_timeout) as R.
  rewrite E in R. rewrite R, bind_raise.
  now erewrite try_except_caught by reflexivity.
Qed.


Lemma run_cgi_responds (fp : string) : responds (run_cgi os h fp).
Proof.
  unfold run_cgi.
  pose proof (subprocess_run_outcome [executable os; fp] (cgi_env os h) cgi_timeout) as R.
  destruct (spawn os _ _) as [child|msg].
  - destruct (Qle_bool (duration child) cgi_timeout); rewrite R.
    + rewrite bind_ret_l. cbn [returncode stdout stderr].
      destruct (child_returncode child =? 0);
        [apply send_content_responds | apply handle_error_responds].
    + rewrite bind_raise. erewrite try_except_caught by reflexivity.
      apply handle_error_responds.
  - rewrite R, bind_raise. erewrite try_except_caught by reflexivity.
    apply handle_error_responds.
Qed.

(** An action answers, or raises a [ServerException] having written
    nothing. *)
Lemma act_outcome (c : Case) :
  responds (act os h c)
  \/ act os h c = raise (ServerException ("'" ++ path h ++ "' not found"))
  \/ act os h c = raise (ServerException ("Unknown object '" ++ path h ++ "'")).
Proof.
  destruct c; cbn [act];
    eauto using handle_file_responds, list_dir_responds, run_cgi_responds.
Qed.

(** The loop of [do_GET] runs the action of the first case that tests
    true. *)
Lemma dispatch_find (cs : list Case) :
  dispatch os h cs
  = match List.find (test os h) cs with
    | Some c => act os h c
    | None => ret tt
    end.
Proof.
  induction cs as [|c cs IH]; [reflexivity|].
  cbn [dispatch List.find]. now destruct (test os h c).
Qed.

Lemma find_first_match (cs pre post : list Case) (c : Case) :
  cs = (pre ++ c :: post)%list ->
  Forall (fun d => test os h d = false) pre ->
  test os h c = true ->
  List.find (test os h) cs = Some c.
Proof.
  intros -> Hpre Hc. induction Hpre as [|d pre Hd _ IH]; cbn.
  - now rewrite Hc.
  - now rewrite Hd.
Qed.

Lemma find_cases_total : exists c, List.find (test os h) cases = Some c.
Proof.
  unfold cases. cbn [List.find].
  repeat match goal with
         | |- context [if test os h ?c then _ else _] =>
             destruct (test os h c) eqn:?; [eauto|]
         end.
  discriminate.
Qed.

Lemma sandbox_check_passes :
  Py.startswith (full_path h) (getcwd os) = true ->
  sandbox_check os h = ret tt.
Proof. intros E. unfold sandbox_check. now rewrite E. Qed.

End Outcomes.

(** ** The whole request *)

Section Request.
Variable os : OS.
Variable h0 : Handler.
Let h := decode os h0.

Lemma do_GET_try_is_dispatch : do_GET_try os h = dispatch os h cases.
Proof.
  unfold do_GET_try.
  rewrite (sandbox_check_passes os h (full_path_startswith_cwd os h0)).
  now rewrite bind_ret_l.
Qed.

Lemma do_GET_try_outcome :
  responds (do_GET_try os h)
  \/ do_GET_try os h = raise (ServerException ("'" ++ path h ++ "' not found"))
  \/ do_GET_try os h = raise (ServerException ("Unknown object '" ++ path h ++ "'")).
Proof.
  rewrite do_GET_try_is_dispatch, dispatch_find.
  destruct (find_cases_total os h) as [c ->]. apply act_outcome.
Qed.

Lemma do_GET_returns :
  raised (do_GET_try os h) = None -> do_GET os h0 = do_GET_try os h.
Proof.
  unfold do_GET. fold h. destruct (do_GET_try os h) as [out [e|[]]]; [discriminate|].
  reflexivity.
Qed.

Lemma do_GET_catches (e : exn) :
  do_GET_try os h = raise e -> do_GET os h0 = handle_error h (str_exn e).
Proof.
  intros E. unfold do_GET. fold h. rewrite E.
  now apply try_except_caught.
Qed.

(** When the chosen action answers, its answer is that of [do_GET]. *)
Lemma do_GET_acts (c : Case) :
  List.find (test os h) cases = Some c ->
  responds (act os h c) ->
  do_GET os h0 = act os h c.
Proof.
  intros F R.
  assert (E : do_GET_try os h = act os h c)
    by now rewrite do_GET_try_is_dispatch, dispatch_find, F.
  rewrite do_GET_returns; [exact E|].
  rewrite E. now destruct R as (r & a & ->).
Qed.


Lemma do_GET_static :
  path_exists os (full_path h) = true ->
  path_isfile os (full_path h) = true ->
  Py.endswith (full_path h) ".py" = false ->
  do_GET os h0 = handle_file os h (full_path h).
Proof.
  intros Hex Hfile Hpy. apply (do_GET_acts CaseExistingFile).
  - unfold cases. cbn [List.find test]. now rewrite Hex, Hfile, Hpy.
  - apply handle_file_responds.
Qed.



End Request.

(* ===================================================================== *)
(** * Path safety *)
(* ===================================================================== *)

(** C1, evaluated on the code.  The claim is that a request path with [..]
    segments, literal or percent-encoded, is either resolved inside the
    document root or refused with "Access denied".  On the site of
    [Site.os], whose root is [/srv/www], the request [/../../etc/passwd]
    gets the full path [/srv/www/../../etc/passwd]; the check accepts it,
    although it names [/etc/passwd], outside the root; dispatch goes on and
    the file is served with status 200.  The percent-encoded request
    [/%2e%2e/%2e%2e/etc/passwd] is answered the same way. *)
Theorem C1_dotdot_request_is_served_from_outside_the_root :
  let h := decode Site.os (request "/../../etc/passwd") in
  full_path h = "/srv/www/../../etc/passwd"
  /\ sandbox_check Site.os h = ret tt
  /\ Py.normpath (full_path h) = "/etc/passwd"
  /\ Py.inside (getcwd Site.os) (full_path h) = false
  /\ do_GET Site.os (request "/../../etc/passwd")
     = send_content h "root:x:0:0" 200
  /\ do_GET Site.os (request "/%2e%2e/%2e%2e/etc/passwd")
     = do_GET Site.os (request "/../../etc/passwd").
Proof. vm_compute. repeat split. Qed.

(** C2.  The sandbox branch of [do_GET] is dead code: whatever the working
    directory and the request path, joining the directory with the path
    stripped of its leading separators gives a string that starts with the
    directory, so the check passes, "Access denied" is never raised, and
    what [do_GET] does is what dispatch does. *)
Theorem C2_sandbox_check_rejects_nothing (os : OS) (h0 : Handler) :
  (forall cwd p : string,
     Py.startswith (Py.path_join cwd (Py.lstrip "/" p)) cwd = true)
  /\ Py.startswith (full_path (decode os h0)) (getcwd os) = true
  /\ sandbox_check os (decode os h0) = ret tt
  /\ do_GET_try os (decode os h0) = dispatch os (decode os h0) cases
  /\ raised (do_GET_try os (decode os h0)) <> Some (ServerException "Access denied").
Proof.
  split; [intros; apply path_join_relative, lstrip_no_sep|].
  split; [apply full_path_startswith_cwd|].
  split; [apply sandbox_check_passes, full_path_startswith_cwd|].
  split; [apply do_GET_try_is_dispatch|].
  destruct (do_GET_try_outcome os h0) as [(r & a & ->)|[->| ->]];
    cbn; [discriminate| |]; intros [=].
Qed.

(* ===================================================================== *)
(** * The case chain *)
(* ===================================================================== *)



(** C4.  The chain is [CaseNoFile], [CaseCgiFile], [CaseExistingFile],
    [CaseDirectoryIndexFile], [CaseDirectoryNoIndex], [CaseAlwaysFail], in
    that order; dispatch runs the action of the first case whose predicate
    holds; hence an existing regular file whose name ends in [.py] is run
    as a script by [run_cgi], and is not read and served by [handle_file]. *)
Theorem C4_dispatch_runs_the_first_matching_case (os : OS) (h : Handler) :
  cases = [CaseNoFile; CaseCgiFile; CaseExistingFile;
           CaseDirectoryIndexFile; CaseDirectoryNoIndex; CaseAlwaysFail]
  /\ (forall (pre post : list Case) (c : Case),
        cases = (pre ++ c :: post)%list ->
        Forall (fun d => test os h d = false) pre ->
        test os h c = true ->
        dispatch os h cases = act os h c)
  /\ (path_exists os (full_path h) = true ->
      path_isfile os (full_path h) = true ->
      Py.endswith (full_path h) ".py" = true ->
      List.find (test os h) cases = Some CaseCgiFile
      /\ dispatch os h cases = run_cgi os h (full_path h)).
Proof.
  split; [reflexivity|]. split.
  - intros pre post c E Hpre Hc.
    now rewrite dispatch_find, (find_first_match os h _ _ _ _ E Hpre Hc).
  - intros Hex Hfile Hpy.
    assert (F : List.find (test os h) cases = Some CaseCgiFile).
    { unfold cases. cbn [List.find test]. now rewrite Hex, Hfile, Hpy. }
    split; [exact F|]. now rewrite dispatch_find, F.
Qed.

(** C4 at work: [/time.py] exists on the site, is a regular file and ends
    in [.py]; dispatch runs it and answers with the script's output, not
    with the file's text. *)
Lemma C4_witness_time_py :
  let h := decode Site.os (request "/time.py") in
  dispatch Site.os h cases = act Site.os h CaseCgiFile
  /\ dispatch Site.os h cases = run_cgi Site.os h (full_path h).
Proof.
  intros h.
  destruct (C4_dispatch_runs_the_first_matching_case Site.os h) as (_ & First & Script).
  split.
  - apply (First [CaseNoFile] [CaseExistingFile; CaseDirectoryIndexFile;
                               CaseDirectoryNoIndex; CaseAlwaysFail] CaseCgiFile).
    + reflexivity.
    + repeat constructor.
    + reflexivity.
  - apply Script; reflexivity.
Defined.

(* ===================================================================== *)
(** * Scripts *)
(* ===================================================================== *)



(** C6.  [run_cgi] gives the child a deadline of 30 seconds.  A child that
    runs longer makes [subprocess.run] raise [TimeoutExpired], and the
    answer is the error page with the message ["CGI script timed out"]:
    whatever the child had written by then is not in it.  A child that ends
    within the deadline is not timed out. *)
Theorem C6_deadline_is_30_and_timeout_hides_output
    (os : OS) (h0 : Handler) (child : Child) :
  let h := decode os h0 in
  cgi_timeout = 30%Q
  /\ (spawn os [executable os; full_path h] (cgi_env os h) = Ok child ->
      (30 < duration child)%Q ->
      subprocess_run os [executable os; full_path h] (cgi_env os h) cgi_timeout
      = raise (TimeoutExpired [executable os; full_path h] cgi_timeout
                 (stdout_by child cgi_timeout))
      /\ run_cgi os h (full_path h)
         = ([{| status := 404;
                headers := [("Content-Type", content_type (path h));
                            ("Content-Length",
                             Py.str (Py.len (error_page (path h) "CGI script timed out")))];
                body := error_page (path h) "CGI script timed out" |}], inr tt))
  /\ (spawn os [executable os; full_path h] (cgi_env os h) = Ok child ->
      (duration child <= 30)%Q ->
      run_cgi os h (full_path h)
      = if child_returncode child =? 0
        then send_content h (child_stdout child) 200
        else handle_error h ("CGI script error: " ++ child_stderr child)).
Proof.
  intros h. split; [reflexivity|]. split.
  - intros E Late.
    assert (T : Qle_bool (duration child) cgi_timeout = false).
    { destruct (Qle_bool (duration child) cgi_timeout) eqn:B; [|reflexivity].
      apply Qle_bool_iff in B. now apply Qlt_not_le in Late. }
    split.
    + pose proof (subprocess_run_outcome os [executable os; full_path h]
                    (cgi_env os h) cgi_timeout) as R.
      now rewrite E, T in R.
    + now rewrite (run_cgi_timed_out os h _ _ E T).
  - intros E Early. apply run_cgi_completed; [exact E|].
    now apply Qle_bool_iff.
Qed.

(** C6 at work: [/slow.py] prints [started] and sleeps for 45 seconds; the
    answer is the time-out page. *)
Lemma C6_witness_slow_py :
  (30 < duration Site.sleeper)%Q
  /\ stdout_by Site.sleeper cgi_timeout = "started"
  /\ run_cgi Site.os (decode Site.os (request "/slow.py")) "/srv/www/slow.py"
     = handle_error (decode Site.os (request "/slow.py")) "CGI script timed out".
Proof.
  split; [reflexivity|]. split; [reflexivity|].
  destruct (C6_deadline_is_30_and_timeout_hides_output Site.os (request "/slow.py")
              Site.sleeper) as (_ & Late & _).
  destruct (Late eq_refl eq_refl) as [_ R].
  exact R.
Defined.

(* ===================================================================== *)
(** * Static files *)
(* ===================================================================== *)



(* ===================================================================== *)
(** * Sizes *)
(* ===================================================================== *)

Section Sizes.

Lemma Qltb_1024 (n : Z) (d : positive) :
  Qltb (n # d) 1024 = (n <? 1024 * Zpos d).
Proof.
  unfold Qltb, Qle_bool. cbn [Qnum Qden].
  destruct (Z.leb_spec (1024 * Zpos d) (n * 1)), (Z.ltb_spec n (1024 * Zpos d));
    try reflexivity; lia.
Qed.

Lemma format_size_loop_step (unit : string) (rest : list string)
    (n : Z) (d : positive) :
  format_size_loop (unit :: rest) (n # d)
  = if n <? 1024 * Zpos d then fmt_1f (n # d) ++ " " ++ unit
    else format_size_loop rest (n # d * 1024).
Proof.
  cbn [format_size_loop]. rewrite Qltb_1024.
  destruct (n <? 1024 * Zpos d); [reflexivity|].
  change ((n # d) / 1024)%Q with (n * 1 # d * 1024).
  now rewrite Z.mul_1_r.
Qed.



End Sizes.



(* ===================================================================== *)
(** * Errors *)
(* ===================================================================== *)




(* ===================================================================== *)
(** * Directory listings *)
(* ===================================================================== *)

Section Listing.




Variable os : OS.
Variable h : Handler.
Variable size : string -> Z.


End Listing.



(* ===================================================================== *)
(** * Further properties of the request flow *)
(* ===================================================================== *)

Section Answers.
Variable os : OS.
Variable h : Handler.

Lemma send_content_answers (content : string) (st : Z) :
  st = 200 \/ st = 404 -> answers h (send_content h content st).
Proof. intros Hst. now exists content, st. Qed.

Lemma handle_error_answers (msg : string) : answers h (handle_error h msg).
Proof. apply send_content_answers. now right. Qed.

Lemma handle_file_answers (p : string) : answers h (handle_file os h p).
Proof.
  destruct (read_bytes os p) as [c|msg] eqn:E.
  - rewrite (handle_file_read _ _ _ _ E). apply send_content_answers. now left.
  - rewrite (handle_file_unreadable _ _ _ _ E). apply handle_error_answers.
Qed.

Lemma list_dir_answers (fp : string) : answers h (list_dir os h fp).
Proof.
  unfold list_dir.
  destruct (listdir os fp) as [entries|msg]; cbn [of_sys].
  - rewrite bind_ret_l.
    destruct (list_dir_loop_outcome os h fp (merge_sort String.le entries)
                (if negb (String.eqb (path h) "/") then [parent_item (path h)] else []))
      as [[items ->]|[msg ->]].
    + rewrite bind_ret_l. apply send_content_answers. now left.
    + rewrite bind_raise. erewrite try_except_caught by reflexivity.
      apply handle_error_answers.
  - rewrite bind_raise. erewrite try_except_caught by reflexivity.
    apply handle_error_answers.
Qed.

Lemma run_cgi_answers (fp : string) : answers h (run_cgi os h fp).
Proof.
  destruct (spawn os [executable os; fp] (cgi_env os h)) as [child|msg] eqn:E.
  - destruct (Qle_bool (duration child) cgi_timeout) eqn:T.
    + rewrite (run_cgi_completed _ _ _ _ E T).
      destruct (child_returncode child =? 0).
      * apply send_content_answers. now left.
      * apply handle_error_answers.
    + rewrite (run_cgi_timed_out _ _ _ _ E T). apply handle_error_answers.
  - rewrite (run_cgi_not_launched _ _ _ _ E). apply handle_error_answers.
Qed.

End Answers.

(** Every request is answered by one call of [send_content]. *)
Lemma do_GET_answers (os : OS) (h0 : Handler) :
  answers (decode os h0) (do_GET os h0).
Proof.
  destruct (do_GET_try_outcome os h0) as [R|[E|E]].
  - assert (N : raised (do_GET_try os (decode os h0)) = None)
      by now destruct R as (r & a & ->).
    rewrite (do_GET_returns os h0 N), do_GET_try_is_dispatch, dispatch_find.
    destruct (find_cases_total os (decode os h0)) as [c Hc].
    rewrite do_GET_try_is_dispatch, dispatch_find, Hc in R. rewrite Hc.
    destruct c; cbn [act] in *;
      auto using handle_file_answers, list_dir_answers, run_cgi_answers;
      destruct R as (r & a & [=]).
  - rewrite (do_GET_catches _ _ _ E). apply handle_error_answers.
  - rewrite (do_GET_catches _ _ _ E). apply handle_error_answers.
Qed.

(** X1.  Whatever the request and the state of the host, [do_GET] writes
    exactly one response; its status is 200 or 404; its headers are
    [Content-Type], chosen from the decoded request path (also for an error
    page or a listing), and [Content-Length], the decimal length of the
    body. *)
Theorem X1_one_response_with_matching_headers (os : OS) (h0 : Handler) :
  exists r,
    do_GET os h0 = ([r], inr tt)
    /\ (status r = 200 \/ status r = 404)
    /\ headers r
       = [("Content-Type", content_type (Py.unquote (path h0)));
          ("Content-Length", Py.str (Py.len (body r)))].
Proof.
  destruct (do_GET_answers os h0) as (content & st & -> & Hst).
  eexists. split; [reflexivity|]. split; [exact Hst | reflexivity].
Qed.

(** X2.  A request for a directory that holds a regular file [index.html]
    is answered from that file and never with a listing: with its bytes and
    status 200 when it can be read, with the error page naming the index
    path when it cannot. *)
Theorem X2_directory_with_index_serves_the_index
    (os : OS) (h0 : Handler) :
  let h := decode os h0 in
  path_exists os (full_path h) = true ->
  path_isfile os (full_path h) = false ->
  path_isdir os (full_path h) = true ->
  path_isfile os (index_path h) = true ->
  (forall content, read_bytes os (index_path h) = Ok content ->
     do_GET os h0 = send_content h content 200)
  /\ (forall msg, read_bytes os (index_path h) = Err msg ->
        do_GET os h0
        = handle_error h ("'" ++ index_path h ++ "' cannot be read: " ++ msg)).
Proof.
  intros h Hex Hfile Hdir Hidx.
  assert (E : do_GET os h0 = handle_file os h (index_path h)).
  { apply (do_GET_acts os h0 CaseDirectoryIndexFile).
    - unfold cases. cbn [List.find test]. fold h. now rewrite Hex, Hfile, Hdir, Hidx.
    - apply handle_file_responds. }
  rewrite E. split.
  - intros content Hread. now apply handle_file_read.
  - intros msg Hread. now apply handle_file_unreadable.
Qed.

(** X2 at work: [/Docs] of the site. *)
Lemma X2_witness_docs :
  do_GET Site.os (request "/Docs")
  = send_content (decode Site.os (request "/Docs")) "idx" 200.
Proof.
  exact (proj1 (X2_directory_with_index_serves_the_index Site.os (request "/Docs")
                  eq_refl eq_refl eq_refl eq_refl) "idx" eq_refl).
Defined.

(** X3.  When nothing exists at the full path, the answer is the error
    page with the message ['<path>' not found], where the path is the
    decoded request path and not the path on disk; nothing is read, listed
    or run, whatever the name ends in. *)
Theorem X3_missing_path_is_reported_not_found (os : OS) (h0 : Handler) :
  let h := decode os h0 in
  path_exists os (full_path h) = false ->
  do_GET os h0
  = handle_error h ("'" ++ Py.unquote (path h0) ++ "' not found").
Proof.
  intros h Hex.
  apply (do_GET_catches os h0 (ServerException ("'" ++ path h ++ "' not found"))).
  rewrite do_GET_try_is_dispatch. unfold cases. cbn [dispatch test].
  fold h. now rewrite Hex.
Qed.

(** X3 at work: [/nothing.py] does not exist on the site. *)
Lemma X3_witness_missing_script :
  do_GET Site.os (request "/nothing.py")
  = handle_error (decode Site.os (request "/nothing.py")) "'/nothing.py' not found".
Proof.
  exact (X3_missing_path_is_reported_not_found Site.os (request "/nothing.py") eq_refl).
Defined.

(** X4.  What exists at the full path but is neither a regular file nor a
    directory falls through to [CaseAlwaysFail]: the answer is the error
    page with the message [Unknown object '<path>']. *)
Theorem X4_special_file_reaches_the_fallback (os : OS) (h0 : Handler) :
  let h := decode os h0 in
  path_exists os (full_path h) = true ->
  path_isfile os (full_path h) = false ->
  path_isdir os (full_path h) = false ->
  List.find (test os h) cases = Some CaseAlwaysFail
  /\ do_GET os h0
     = handle_error h ("Unknown object '" ++ Py.unquote (path h0) ++ "'").
Proof.
  intros h Hex Hfile Hdir.
  assert (F : List.find (test os h) cases = Some CaseAlwaysFail).
  { unfold cases. cbn [List.find test]. now rewrite Hex, Hfile, Hdir. }
  split; [exact F|].
  apply (do_GET_catches os h0 (ServerException ("Unknown object '" ++ path h ++ "'"))).
  rewrite do_GET_try_is_dispatch, dispatch_find. fold h. now rewrite F.
Qed.

(** X4 at work: the device node [/dev] of the site. *)
Lemma X4_witness_device :
  do_GET Site.os (request "/dev")
  = handle_error (decode Site.os (request "/dev")) "Unknown object '/dev'".
Proof.
  exact (proj2 (X4_special_file_reaches_the_fallback Site.os (request "/dev")
                  eq_refl eq_refl eq_refl)).
Defined.

(* ===================================================================== *)
(** * Further properties of directory listings *)
(* ===================================================================== *)

Section ListingFailure.
Variable os : OS.
Variable h : Handler.
Variable fp : string.

(** An entry that needs no size, or whose size is at hand. *)
Let passes (entry : string) : Prop :=
  hidden entry = true
  \/ path_isdir os (Py.path_join fp entry) = true
  \/ exists n, path_getsize os (Py.path_join fp entry) = Ok n.

Lemma list_dir_loop_fails (pre post items : list string) (entry msg : string) :
  (forall e, In e pre -> passes e) ->
  hidden entry = false ->
  path_isdir os (Py.path_join fp entry) = false ->
  path_getsize os (Py.path_join fp entry) = Err msg ->
  list_dir_loop os h fp (pre ++ entry :: post)%list items = raise (OSError msg).
Proof.
  intros Hpre Hh Hd Hs. revert items.
  induction pre as [|e pre IH]; intros items.
  - cbn [app list_dir_loop]. now rewrite Hh, Hd, Hs.
  - assert (Hpre' : forall x, In x pre -> passes x)
      by (intros x Hx; apply Hpre; now right).
    cbn [app list_dir_loop].
    destruct (hidden e) eqn:He; [now apply IH|].
    destruct (path_isdir os (Py.path_join fp e)) eqn:Hde; [now apply IH|].
    destruct (Hpre e (or_introl eq_refl)) as [H|[H|[n H]]]; [congruence..|].
    rewrite H. cbn [of_sys]. rewrite bind_ret_l. now apply IH.
Qed.

(** The loop sees the host only through [path_isdir] and
    [path_getsize]. *)
Lemma list_dir_loop_ext (os' : OS) (entries items : list string) :
  (forall p, path_isdir os p = path_isdir os' p) ->
  (forall p, path_getsize os p = path_getsize os' p) ->
  list_dir_loop os h fp entries items = list_dir_loop os' h fp entries items.
Proof.
  intros Hd Hs. revert items.
  induction entries as [|e rest IH]; intros items; [reflexivity|].
  cbn [list_dir_loop]. rewrite <- Hd, <- Hs.
  destruct (hidden e); [apply IH|].
  destruct (path_isdir os (Py.path_join fp e)); [apply IH|].
  destruct (path_getsize os (Py.path_join fp e)) as [n|msg]; [|reflexivity].
  cbn [of_sys]. rewrite !bind_ret_l. apply IH.
Qed.

End ListingFailure.

(** X5.  When the size of an entry cannot be obtained (the file vanished
    after the directory was enumerated, say), no listing is sent, not even
    of the entries before it: the answer is the error page with the message
    ['<path>' cannot be listed: ] followed by the text of the error of the
    first such entry in sorted order. *)
Theorem X5_size_failure_replaces_the_listing
    (os : OS) (h : Handler) (fp : string)
    (entries pre post : list string) (entry msg : string) :
  listdir os fp = Ok entries ->
  merge_sort String.le entries = (pre ++ entry :: post)%list ->
  (forall e, In e pre ->
     hidden e = true
     \/ path_isdir os (Py.path_join fp e) = true
     \/ exists n, path_getsize os (Py.path_join fp e) = Ok n) ->
  hidden entry = false ->
  path_isdir os (Py.path_join fp entry) = false ->
  path_getsize os (Py.path_join fp entry) = Err msg ->
  list_dir os h fp
  = handle_error h ("'" ++ path h ++ "' cannot be listed: " ++ msg).
Proof.
  intros Hlist Hsort Hpre Hh Hd Hs.
  unfold list_dir. rewrite Hlist. cbn [of_sys]. rewrite bind_ret_l, Hsort.
  rewrite (list_dir_loop_fails os h fp pre post _ entry msg Hpre Hh Hd Hs).
  rewrite bind_raise. now erewrite try_except_caught by reflexivity.
Qed.

(** X5 at work: [bad.py] vanished from the document root; the hidden
    [.git] and the directory [Docs] come before it. *)
Lemma X5_witness_vanished_file :
  list_dir Race.os (decode Race.os (request "/")) "/srv/www/"
  = handle_error (decode Race.os (request "/"))
      "'/' cannot be listed: [Errno 2] No such file or directory: '/srv/www/bad.py'".
Proof.
  refine (X5_size_failure_replaces_the_listing Race.os (decode Race.os (request "/"))
            "/srv/www/"
            [ "zeta.txt"; "index.htm"; ".git"; "Docs"; "time.py"; "bad.py";
              "slow.py"; "locked"; "dev"; "big.bin" ]
            [ ".git"; "Docs" ]
            [ "big.bin"; "dev"; "index.htm"; "locked"; "slow.py"; "time.py"; "zeta.txt" ]
            "bad.py" (ENOENT "/srv/www/bad.py")
            eq_refl eq_refl _ eq_refl eq_refl eq_refl).
  intros e [<-|[<-|[]]].
  - left. reflexivity.
  - right. left. reflexivity.
Defined.

(** X6.  The listing does not depend on the order in which the system
    enumerates the directory: two hosts that agree on what is a directory
    and on sizes, and enumerate the same names in any two orders, give the
    same answer. *)
Theorem X6_listing_is_independent_of_enumeration_order
    (os1 os2 : OS) (h : Handler) (fp : string) (l1 l2 : list string) :
  listdir os1 fp = Ok l1 ->
  listdir os2 fp = Ok l2 ->
  Permutation l1 l2 ->
  (forall p, path_isdir os1 p = path_isdir os2 p) ->
  (forall p, path_getsize os1 p = path_getsize os2 p) ->
  list_dir os1 h fp = list_dir os2 h fp.
Proof.
  intros H1 H2 Hperm Hd Hs.
  assert (E : merge_sort String.le l1 = merge_sort String.le l2).
  { apply (StronglySorted_unique String.le).
    - apply StronglySorted_merge_sort; apply _.
    - apply StronglySorted_merge_sort; apply _.
    - now rewrite !merge_sort_Permutation. }
  unfold list_dir. rewrite H1, H2. cbn [of_sys]. rewrite !bind_ret_l, E.
  now rewrite (list_dir_loop_ext os1 h fp os2 _ _ Hd Hs).
Qed.

(** X6 at work: the site, and the site enumerating backwards. *)
Lemma X6_witness_backwards :
  list_dir Site.os (decode Site.os (request "/")) "/srv/www/"
  = list_dir Race.backwards (decode Site.os (request "/")) "/srv/www/".
Proof.
  refine (X6_listing_is_independent_of_enumeration_order Site.os Race.backwards _
            "/srv/www/" _ _ eq_refl eq_refl _ (fun _ => eq_refl) (fun _ => eq_refl)).
  apply Permutation_rev.
Defined.

(* ===================================================================== *)
(** * Further properties of script runs and sizes *)
(* ===================================================================== *)

(** X7.  The environment handed to a script is the server's own with four
    variables set, whatever they were before: [REQUEST_METHOD] is [GET],
    [PATH_INFO] the request path, [SERVER_NAME] the server's name and
    [SERVER_PORT] its port in decimal; every other variable is passed on
    unchanged, and none is removed. *)
Theorem X7_cgi_environment (os : OS) (h : Handler) :
  cgi_env os h !! "REQUEST_METHOD" = Some "GET"
  /\ cgi_env os h !! "PATH_INFO" = Some (path h)
  /\ cgi_env os h !! "SERVER_NAME" = Some (server_name h)
  /\ cgi_env os h !! "SERVER_PORT" = Some (Py.str (server_port h))
  /\ (forall name : string,
        name <> "REQUEST_METHOD" -> name <> "PATH_INFO" ->
        name <> "SERVER_NAME" -> name <> "SERVER_PORT" ->
        cgi_env os h !! name = environ os !! name).
Proof.
  unfold cgi_env. repeat split.
  - now rewrite !lookup_insert_ne, lookup_insert_eq by discriminate.
  - now rewrite !lookup_insert_ne, lookup_insert_eq by discriminate.
  - now rewrite lookup_insert_ne, lookup_insert_eq by discriminate.
  - now rewrite lookup_insert_eq.
  - intros name H1 H2 H3 H4. now rewrite !lookup_insert_ne by congruence.
Qed.

(** X7 at work: the [PATH] of the site's environment reaches the script. *)
Lemma X7_witness_path_is_inherited :
  cgi_env Site.os (request "/time.py") !! "PATH" = Some "/usr/bin".
Proof.
  destruct (X7_cgi_environment Site.os (request "/time.py")) as (_ & _ & _ & _ & Rest).
  rewrite (Rest "PATH") by discriminate. reflexivity.
Defined.

Section SizeFacts.

Lemma append_assoc (a b c : string) : (a ++ b) ++ c = a ++ b ++ c.
Proof.
  induction a as [|x a IH]; [reflexivity|].
  now rewrite !append_cons, IH.
Qed.

Lemma round_half_even_exact (n : Z) : round_half_even n 1 = n.
Proof.
  unfold round_half_even. rewrite Z.div_1_r, Z.mod_1_r. reflexivity.
Qed.

Lemma round_half_even_between (n a b : Z) (d : positive) :
  a * Zpos d <= n <= b * Zpos d -> a <= round_half_even n (Zpos d) <= b.
Proof.
  intros [Ha Hb]. unfold round_half_even.
  pose proof (Z.div_mod n (Zpos d) ltac:(lia)) as E.
  pose proof (Z.mod_pos_bound n (Zpos d) ltac:(lia)) as B.
  assert (a <= n / Zpos d) by (apply Z.div_le_lower_bound; lia).
  assert (n / Zpos d <= b) by (apply Z.div_le_upper_bound; lia).
  assert (n / Zpos d = b -> n mod Zpos d = 0) by nia.
  destruct (Z.ltb_spec (2 * (n mod Zpos d)) (Zpos d)); [lia|].
  destruct (Z.ltb_spec (Zpos d) (2 * (n mod Zpos d))); [lia|].
  destruct (Z.even (n / Zpos d)); lia.
Qed.

(** The unit of a size of at least 1024 bytes. *)
Lemma format_size_unit (n : Z) :
  1024 <= n ->
  exists (d : positive) (unit : string),
    In unit ["KB"; "MB"; "GB"; "TB"]
    /\ Zpos d <= n
    /\ (n < 1024 ^ 5 -> n < 1024 * Zpos d)
    /\ format_size n = fmt_1f (n # d) ++ " " ++ unit.
Proof.
  intros Hn. unfold format_size, inject_Z.
  rewrite !format_size_loop_step. cbn [format_size_loop].
  change (1 * 1024)%positive with 1024%positive.
  change (1024 * 1024)%positive with 1048576%positive.
  change (1048576 * 1024)%positive with 1073741824%positive.
  change (1073741824 * 1024)%positive with 1099511627776%positive.
  destruct (Z.ltb_spec n (1024 * 1)); [lia|].
  destruct (Z.ltb_spec n (1024 * 1024)).
  { exists 1024%positive, "KB". cbn [In]. repeat split; auto; lia. }
  destruct (Z.ltb_spec n (1024 * 1048576)).
  { exists 1048576%positive, "MB". cbn [In]. repeat split; auto; lia. }
  destruct (Z.ltb_spec n (1024 * 1073741824)).
  { exists 1073741824%positive, "GB". cbn [In]. repeat split; auto; lia. }
  exists 1099511627776%positive, "TB". cbn [In]. repeat split; auto; lia.
Qed.

End SizeFacts.

(** X8.  A size below 1024 is shown as the number of bytes itself,
    followed by [.0 B]. *)
Theorem X8_small_sizes_are_shown_in_whole_bytes (n : Z) :
  n < 1024 -> format_size n = Py.str n ++ ".0 B".
Proof.
  intros Hn. unfold format_size, inject_Z. rewrite format_size_loop_step.
  destruct (Z.ltb_spec n (1024 * 1)); [|lia].
  unfold fmt_1f. cbn [Qnum Qden]. rewrite round_half_even_exact.
  rewrite (Z.mul_comm 10 n), Z.div_mul, Z.mod_mul by lia.
  now rewrite append_assoc.
Qed.

(** X8 at work. *)
Lemma X8_witness_empty_file : format_size 0 = "0.0 B".
Proof. exact (X8_small_sizes_are_shown_in_whole_bytes 0 eq_refl). Defined.

(** X9.  From 1024 bytes up to, not including, [1024^5], the number shown
    lies between 1.0 and 1024.0 and the unit is one of KB, MB, GB, TB.  The
    unit is chosen before the value is rounded, so the upper end, 1024.0,
    is reached (by 1048575 bytes, shown as [1024.0 KB]). *)
Theorem X9_shown_value_lies_between_1_and_1024 (n : Z) :
  1024 <= n < 1024 ^ 5 ->
  exists (tenths : Z) (unit : string),
    In unit ["KB"; "MB"; "GB"; "TB"]
    /\ 10 <= tenths <= 10240
    /\ format_size n
       = (Py.str (tenths / 10) ++ "." ++ Py.str (tenths mod 10)) ++ " " ++ unit.
Proof.
  intros [Hlo Hhi].
  destruct (format_size_unit n Hlo) as (d & unit & Hunit & Hd & Hup & ->).
  exists (round_half_even (10 * n) (Zpos d)), unit.
  split; [exact Hunit|]. split; [|reflexivity].
  apply round_half_even_between. specialize (Hup Hhi). lia.
Qed.

(** X9 at work at the upper end. *)
Lemma X9_witness_just_below_a_megabyte :
  exists (tenths : Z) (unit : string),
    In unit ["KB"; "MB"; "GB"; "TB"]
    /\ 10 <= tenths <= 10240
    /\ format_size 1048575
       = (Py.str (tenths / 10) ++ "." ++ Py.str (tenths mod 10)) ++ " " ++ unit.
Proof.
  apply (X9_shown_value_lies_between_1_and_1024 1048575). split; [discriminate | reflexivity].
Defined.

(* ===================================================================== *)
(** * Further properties of [send_content] *)
(* ===================================================================== *)

Section Suffixes.

Lemma endswith_unfold (s suf : string) :
  Py.endswith s suf
  = if String.eqb s suf then true
    else match s with
         | EmptyString => false
         | String _ t => Py.endswith t suf
         end.
Proof. now destruct s. Qed.

Lemma endswith_length (s suf : string) :
  Py.endswith s suf = true -> (String.length suf <= String.length s)%nat.
Proof.
  induction s as [|c t IH]; rewrite endswith_unfold.
  - destruct (String.eqb_spec "" suf) as [<-|_]; [lia | discriminate].
  - destruct (String.eqb_spec (String c t) suf) as [<-|_]; [lia|].
    intros H. specialize (IH H). cbn [String.length]. lia.
Qed.

(** Two suffixes of one string: the shorter is a suffix of the longer. *)
Lemma endswith_both (s a b : string) :
  Py.endswith s a = true -> Py.endswith s b = true ->
  (String.length b <= String.length a)%nat ->
  Py.endswith a b = true.
Proof.
  induction s as [|c t IH]; rewrite (endswith_unfold _ a), (endswith_unfold _ b).
  - destruct (String.eqb_spec "" a) as [<-|_]; [|discriminate].
    destruct (String.eqb_spec "" b) as [<-|_]; [reflexivity | discriminate].
  - destruct (String.eqb_spec (String c t) a) as [<-|_].
    + intros _ Hb _. rewrite endswith_unfold.
      destruct (String.eqb_spec (String c t) b) as [<-|_]; [reflexivity | exact Hb].
    + destruct (String.eqb_spec (String c t) b) as [<-|_]; [|exact IH].
      intros Ha _ Hlen. apply endswith_length in Ha.
      cbn [String.length] in Hlen. lia.
Qed.

(** Two suffixes neither of which ends the other end no common string. *)
Lemma endswith_exclusive (s a b : string) :
  Py.endswith a b = false -> Py.endswith b a = false ->
  Py.endswith s a = true -> Py.endswith s b = false.
Proof.
  intros Hab Hba Ha. destruct (Py.endswith s b) eqn:Hb; [|reflexivity].
  destruct (Nat.le_gt_cases (String.length b) (String.length a)) as [L|L].
  - now rewrite (endswith_both s a b Ha Hb L) in Hab.
  - assert (L' : (String.length a <= String.length b)%nat) by lia.
    now rewrite (endswith_both s b a Hb Ha L') in Hba.
Qed.

End Suffixes.

(** X10.  The content type is read off the end of the request path, and
    the table is unambiguous: no path ends in two of its suffixes with
    different types, so the order of the tests in [send_content] does not
    matter.  [.html] and [.htm] give [text/html], [.css] gives [text/css],
    [.js] [application/javascript], [.json] [application/json], [.jpg] and
    [.jpeg] [image/jpeg], [.png] [image/png], [.gif] [image/gif], and any
    other path [text/html]. *)
Theorem X10_content_type_table (path : string) :
  (Py.endswith path ".html" = true \/ Py.endswith path ".htm" = true ->
     content_type path = "text/html")
  /\ (Py.endswith path ".css" = true -> content_type path = "text/css")
  /\ (Py.endswith path ".js" = true -> content_type path = "application/javascript")
  /\ (Py.endswith path ".json" = true -> content_type path = "application/json")
  /\ (Py.endswith path ".jpg" = true \/ Py.endswith path ".jpeg" = true ->
        content_type path = "image/jpeg")
  /\ (Py.endswith path ".png" = true -> content_type path = "image/png")
  /\ (Py.endswith path ".gif" = true -> content_type path = "image/gif")
  /\ (Py.endswith_any path [".html"; ".htm"; ".css"; ".js"; ".json"; ".jpg";
                            ".jpeg"; ".png"; ".gif"] = false ->
        content_type path = "text/html").
Proof.
  assert (X : forall a b, Py.endswith a b = false -> Py.endswith b a = false ->
                          Py.endswith path a = true -> Py.endswith path b = false)
    by (intros a b; apply endswith_exclusive).
  unfold content_type, Py.endswith_any. cbn [existsb].
  repeat split.
  - intros [-> | ->]; [reflexivity | now rewrite orb_true_r].
  - intros H.
    rewrite (X ".css" ".html"), (X ".css" ".htm"), H by (reflexivity || exact H).
    reflexivity.
  - intros H.
    rewrite (X ".js" ".html"), (X ".js" ".htm"), (X ".js" ".css"), H
      by (reflexivity || exact H).
    reflexivity.
  - intros H.
    rewrite (X ".json" ".html"), (X ".json" ".htm"), (X ".json" ".css"),
      (X ".json" ".js"), H by (reflexivity || exact H).
    reflexivity.
  - intros [H | H].
    + rewrite (X ".jpg" ".html"), (X ".jpg" ".htm"), (X ".jpg" ".css"),
        (X ".jpg" ".js"), (X ".jpg" ".json"), H by (reflexivity || exact H).
      reflexivity.
    + rewrite (X ".jpeg" ".html"), (X ".jpeg" ".htm"), (X ".jpeg" ".css"),
        (X ".jpeg" ".js"), (X ".jpeg" ".json"), H by (reflexivity || exact H).
      now rewrite orb_true_r.
  - intros H.
    rewrite (X ".png" ".html"), (X ".png" ".htm"), (X ".png" ".css"),
      (X ".png" ".js"), (X ".png" ".json"), (X ".png" ".jpg"),
      (X ".png" ".jpeg"), H by (reflexivity || exact H).
    reflexivity.
  - intros H.
    rewrite (X ".gif" ".html"), (X ".gif" ".htm"), (X ".gif" ".css"),
      (X ".gif" ".js"), (X ".gif" ".json"), (X ".gif" ".jpg"),
      (X ".gif" ".jpeg"), (X ".gif" ".png"), H by (reflexivity || exact H).
    reflexivity.
  - intros H.
    repeat (apply orb_false_elim in H; destruct H as [? H]).
    repeat match goal with E : Py.endswith path _ = false |- _ => rewrite E; clear E end.
    reflexivity.
Qed.

(** X10 at work: a style sheet, and an address that also contains
    [.html]. *)
Lemma X10_witness_style_sheet :
  content_type "/theme.html/site.css" = "text/css".
Proof.
  destruct (X10_content_type_table "/theme.html/site.css") as (_ & Css & _).
  exact (Css eq_refl).
Defined.

(* ===================================================================== *)
(** * Properties of [create_sample_files] *)
(* ===================================================================== *)

Section SampleFacts.
Import Samples.

(** The texts have the lengths, in bytes, of those of the source. *)
Example sample_sizes :
  map String.length [index_html; time_py; info_py] = [833; 475; 994]%nat.
Proof. vm_compute. reflexivity. Qed.

(** One [if not os.path.exists(name): write] step, entry by entry. *)
Lemma ensure_lookup (d : gmap string node) (name text key : string) :
  (if negb (exists_in d name) then write_text d name text else d) !! key
  = match d !! key with
    | Some x => Some x
    | None => if decide (key = name) then Some (File true text) else None
    end.
Proof.
  unfold exists_in, write_text.
  destruct (d !! name) as [y|] eqn:E; cbn [negb].
  - destruct (d !! key) eqn:K; [reflexivity|].
    destruct (decide (key = name)) as [->|]; [congruence | reflexivity].
  - destruct (decide (key = name)) as [->|Hne].
    + now rewrite lookup_insert_eq, E.
    + rewrite lookup_insert_ne by congruence. now destruct (d !! key).
Qed.

Lemma create_sample_files_lookup (d : gmap string node) (key : string) :
  create_sample_files d !! key
  = match d !! key with
    | Some x => Some x
    | None =>
        if decide (key = "index.html") then Some (File true index_html)
        else if decide (key = "time.py") then Some (File true time_py)
        else if decide (key = "info.py") then Some (File true info_py)
        else None
    end.
Proof.
  unfold create_sample_files. rewrite !ensure_lookup.
  destruct (d !! key); [reflexivity|].
  destruct (decide (key = "index.html")) as [->|]; [reflexivity|].
  destruct (decide (key = "time.py")) as [->|]; reflexivity.
Qed.




End SampleFacts.





(** X13.  [create_sample_files] is idempotent: a second run changes
    nothing. *)
Theorem X13_samples_idempotent (d : gmap string node) :
  Samples.create_sample_files (Samples.create_sample_files d)
  = Samples.create_sample_files d.
Proof.
  apply map_eq. intros key. rewrite !create_sample_files_lookup.
  destruct (d !! key); [reflexivity|].
  repeat (destruct (decide _); [reflexivity|]). reflexivity.
Qed.



(* ===================================================================== *)
(** * What the sandbox does hold for *)
(* ===================================================================== *)

Section NormFacts.

Lemma startswith_cons (a b : ascii) (t u : string) :
  Py.startswith (String a t) (String b u)
  = if ascii_dec b a then Py.startswith t u else false.
Proof. reflexivity. Qed.

Lemma startswith_nil (s : string) : Py.startswith s "" = true.
Proof. apply prefix_empty. Qed.

Lemma startswith_sep_cons (t : string) : Py.startswith (String "/" t) "/" = true.
Proof.
  change "/" with (String "/"%char ""). rewrite startswith_cons.
  destruct (ascii_dec "/" "/"); [apply startswith_nil | congruence].
Qed.

Lemma startswith_sep_inv (s : string) :
  Py.startswith s "/" = true -> exists t, s = String "/" t.
Proof.
  destruct s as [|a t]; [discriminate|].
  change "/" with (String "/"%char "") at 1. rewrite startswith_cons.
  destruct (ascii_dec "/" a) as [<-|]; [eauto | discriminate].
Qed.

Lemma endswith_app_inv (s suf : string) :
  Py.endswith s suf = true -> exists pre, s = pre ++ suf.
Proof.
  induction s as [|c t IH]; rewrite endswith_unfold.
  - destruct (String.eqb_spec "" suf) as [<-|_]; [now exists "" | discriminate].
  - destruct (String.eqb_spec (String c t) suf) as [<-|_]; [now exists ""|].
    intros H. destruct (IH H) as [pre ->]. now exists (String c pre).
Qed.

(** Joining a relative path onto a directory that has a name. *)
Lemma path_join_relative_eq (cwd rel : string) :
  cwd <> "" -> Py.startswith rel "/" = false ->
  Py.path_join cwd rel
  = cwd ++ (if Py.endswith cwd "/" then "" else "/") ++ rel.
Proof.
  intros Hc Hr. unfold Py.path_join. rewrite Hr.
  destruct (String.eqb_spec cwd "") as [->|_]; [congruence|]. cbn [orb].
  now destruct (Py.endswith cwd "/").
Qed.

Lemma split_go_app (c : ascii) (a b cur : string) :
  Py.split_go c cur (a ++ String c b)
  = (Py.split_go c cur a ++ Py.split_go c "" b)%list.
Proof.
  revert cur. induction a as [|x a IH]; intros cur.
  - rewrite append_nil_l. cbn [Py.split_go]. now rewrite Ascii.eqb_refl.
  - rewrite append_cons. cbn [Py.split_go].
    destruct (Ascii.eqb x c); [|apply IH].
    now rewrite IH.
Qed.

(** The components of a joined path are those of the directory followed
    by those of the relative path, up to an empty component. *)
Lemma split_path_join (cwd rel : string) :
  cwd <> "" -> Py.startswith rel "/" = false ->
  exists A : list string,
    (Py.split "/" cwd = A \/ Py.split "/" cwd = (A ++ [""])%list)
    /\ Py.split "/" (Py.path_join cwd rel) = (A ++ Py.split "/" rel)%list.
Proof.
  intros Hc Hr. rewrite (path_join_relative_eq _ _ Hc Hr). unfold Py.split.
  destruct (Py.endswith cwd "/") eqn:E.
  - destruct (endswith_app_inv _ _ E) as [pre ->].
    exists (Py.split_go "/" "" pre). split.
    + right. now rewrite split_go_app.
    + rewrite append_nil_l, append_assoc.
      change ("/" ++ rel) with (String "/"%char rel). apply split_go_app.
  - exists (Py.split_go "/" "" cwd). split; [now left|].
    change ("/" ++ rel) with (String "/"%char rel). apply split_go_app.
Qed.

Lemma lstrip_split (s : string) :
  forall comp, In comp (Py.split "/" (Py.lstrip "/" s)) -> In comp (Py.split "/" s).
Proof.
  unfold Py.split. induction s as [|c s IH]; intros comp; [exact (fun H => H)|].
  cbn [Py.lstrip]. destruct (Ascii.eqb c "/") eqn:E; [|exact (fun H => H)].
  cbn [Py.split_go]. rewrite E. intros H. right. now apply IH.
Qed.

(** Resolution of the components, in two parts. *)
Lemma normpath_comps_app (rooted : bool) (A B stack : list string) :
  Py.normpath_comps rooted stack (A ++ B)
  = Py.normpath_comps rooted (rev (Py.normpath_comps rooted stack A)) B.
Proof.
  revert stack. induction A as [|comp A IH]; intros stack.
  - cbn [app Py.normpath_comps]. now rewrite rev_involutive.
  - cbn [app Py.normpath_comps].
    destruct (String.eqb comp "" || String.eqb comp "."); [apply IH|].
    destruct (negb (String.eqb comp "..")); [apply IH|].
    destruct stack as [|top below]; [destruct rooted; apply IH|].
    destruct (String.eqb top ".."); apply IH.
Qed.

(** Components without [..] are kept, but for the empty ones and [.]. *)
Lemma normpath_comps_plain (rooted : bool) (B stack : list string) :
  ~ In ".." B ->
  Py.normpath_comps rooted stack B
  = (rev stack
     ++ List.filter (fun comp => negb (String.eqb comp "" || String.eqb comp ".")) B)%list.
Proof.
  revert stack. induction B as [|comp B IH]; intros stack Hno.
  - cbn. now rewrite app_nil_r.
  - assert (Hno' : ~ In ".." B) by (intros H; apply Hno; now right).
    cbn [Py.normpath_comps List.filter].
    destruct (String.eqb comp "" || String.eqb comp "."); cbn [negb]; [now apply IH|].
    destruct (String.eqb_spec comp "..") as [->|_]; [exfalso; apply Hno; now left|].
    cbn [negb]. rewrite (IH _ Hno'). cbn [rev]. now rewrite <- app_assoc.
Qed.

Lemma join_app (sep : string) (A B : list string) :
  A <> [] -> B <> [] ->
  Py.join sep (A ++ B) = Py.join sep A ++ sep ++ Py.join sep B.
Proof.
  intros HA HB. induction A as [|x A IH]; [congruence|].
  destruct A as [|y A].
  - destruct B as [|z B]; [congruence | reflexivity].
  - change (Py.join sep ((x :: y :: A) ++ B))
      with (x ++ sep ++ Py.join sep ((y :: A) ++ B)).
    rewrite IH by discriminate.
    change (Py.join sep (x :: y :: A)) with (x ++ sep ++ Py.join sep (y :: A)).
    now rewrite !append_assoc.
Qed.

End NormFacts.

Section InsideFacts.

(** The leading separators [normpath] keeps: two when the path starts
    with exactly two, else one. *)
Let slashes (x : string) : string :=
  if Py.startswith x "//" && negb (Py.startswith x "///") then "//" else "/".

Lemma normpath_absolute (x : string) :
  Py.startswith x "/" = true ->
  Py.normpath x
  = slashes x ++ Py.join "/" (Py.normpath_comps true [] (Py.split "/" x)).
Proof.
  intros H. destruct (startswith_sep_inv _ H) as [t ->].
  unfold Py.normpath, slashes. rewrite H.
  change (String.eqb (String "/" t) "") with false. cbv iota.
  destruct (Py.startswith (String "/" t) "//" && negb (Py.startswith (String "/" t) "///"));
    now rewrite append_cons.
Qed.

Lemma slashes_path_join (cwd rel : string) :
  Py.startswith cwd "/" = true -> Py.startswith rel "/" = false ->
  slashes (Py.path_join cwd rel) = slashes cwd.
Proof.
  intros Hc Hr. destruct (startswith_sep_inv _ Hc) as [t ->].
  rewrite path_join_relative_eq by (discriminate || assumption).
  unfold slashes.
  destruct t as [|b t].
  - (* the directory is "/" *)
    change (Py.endswith "/" "/") with true. cbv iota.
    rewrite append_nil_l, append_cons, append_nil_l.
    change "//" with (String "/"%char "/"). rewrite !startswith_cons.
    destruct (ascii_dec "/" "/"); [|congruence]. now rewrite Hr.
  - rewrite !append_cons.
    change "//" with (String "/"%char (String "/"%char "")).
    change "///" with (String "/"%char (String "/"%char (String "/"%char ""))).
    rewrite !startswith_cons.
    destruct (ascii_dec "/" "/"); [|congruence].
    destruct (ascii_dec "/" b) as [<-|]; [|reflexivity].
    rewrite !startswith_nil. cbn [andb].
    destruct t as [|c t].
    + (* the directory is "//" *)
      change (Py.endswith "//" "/") with true. cbv iota.
      rewrite !append_nil_l. change "/" with (String "/"%char "") in Hr.
      destruct rel as [|r rel]; [reflexivity|].
      rewrite startswith_cons in *.
      destruct (ascii_dec "/" r); [|reflexivity].
      rewrite startswith_nil in Hr. discriminate.
    + rewrite append_cons, !startswith_cons.
      destruct (ascii_dec "/" c); [now rewrite !startswith_nil | reflexivity].
Qed.

(** A relative path without [..] keeps the joined path inside the
    directory. *)
Lemma inside_path_join (cwd rel : string) :
  Py.startswith cwd "/" = true ->
  Py.startswith rel "/" = false ->
  ~ In ".." (Py.split "/" rel) ->
  Py.inside cwd (Py.path_join cwd rel) = true.
Proof.
  intros Hc Hr Hno.
  assert (Hne : cwd <> "") by (intros ->; discriminate).
  assert (Hp : Py.startswith (Py.path_join cwd rel) "/" = true).
  { rewrite path_join_relative_eq by assumption.
    destruct (startswith_sep_inv _ Hc) as [t ->].
    rewrite append_cons. apply startswith_sep_cons. }
  unfold Py.inside.
  rewrite (normpath_absolute _ Hc), (normpath_absolute _ Hp), (slashes_path_join _ _ Hc Hr).
  destruct (split_path_join cwd rel Hne Hr) as (A & HA & ->).
  rewrite normpath_comps_app, (normpath_comps_plain true (Py.split "/" rel)) by exact Hno.
  rewrite rev_involutive.
  assert (EA : Py.normpath_comps true [] (Py.split "/" cwd) = Py.normpath_comps true [] A).
  { destruct HA as [->| ->]; [reflexivity|].
    rewrite normpath_comps_app. cbn [Py.normpath_comps String.eqb orb].
    now rewrite rev_involutive. }
  rewrite EA.
  set (CA := Py.normpath_comps true [] A).
  set (CB := List.filter _ (Py.split "/" rel)).
  set (sl := slashes cwd).
  destruct CB as [|b CB].
  - rewrite app_nil_r, String.eqb_refl. reflexivity.
  - destruct CA as [|a CA].
    + cbn [app]. change (Py.join "/" []) with "".
      assert (Esl : sl ++ "" = sl) by (subst sl; unfold slashes; now destruct (_ && _)).
      rewrite Esl.
      assert (Eend : Py.endswith sl "/" = true)
        by (subst sl; unfold slashes; now destruct (_ && _)).
      rewrite Eend. unfold Py.startswith. rewrite prefix_app. apply orb_true_r.
    + rewrite join_app by discriminate.
      destruct (Py.endswith (sl ++ Py.join "/" (a :: CA)) "/");
        unfold Py.startswith.
      * rewrite <- append_assoc, prefix_app. apply orb_true_r.
      * rewrite <- (append_assoc sl), <- (append_assoc (sl ++ _) "/"), prefix_app.
        apply orb_true_r.
Qed.

End InsideFacts.

(** X15.  What the prefix test of [do_GET] does not check, paths without
    [..] do not need: when the working directory is absolute and no
    component of the decoded request path is [..], the full path, once
    normalised, is the directory or lies beneath it, however many separators
    and [.] components the path has. *)
Theorem X15_paths_without_dotdot_stay_inside (os : OS) (h0 : Handler) :
  Py.startswith (getcwd os) "/" = true ->
  ~ In ".." (Py.split "/" (Py.unquote (path h0))) ->
  Py.inside (getcwd os) (full_path (decode os h0)) = true.
Proof.
  intros Habs Hno. apply inside_path_join.
  - exact Habs.
  - apply lstrip_no_sep.
  - intros H. apply Hno. now apply lstrip_split.
Qed.

(** X15 at work: a path with doubled separators and [.] components. *)
Lemma X15_witness_dots_and_slashes :
  Py.inside "/srv/www" (full_path (decode Site.os (request "//Docs/.//index.html/")))
  = true.
Proof.
  apply (X15_paths_without_dotdot_stay_inside Site.os (request "//Docs/.//index.html/")).
  - reflexivity.
  - cbn. intros [H|[H|[H|[H|[H|[H|[H|[]]]]]]]]; discriminate H.
Defined.

(* ===================================================================== *)
(** * What error pages and parent links disclose *)
(* ===================================================================== *)

Section PrefixFacts.

Lemma prefix_app_inv (a s : string) :
  String.prefix a s = true -> exists z, s = a ++ z.
Proof.
  revert s. induction a as [|c a IH]; intros s H.
  - now exists s.
  - destruct s as [|d s]; [discriminate|].
    rewrite prefix_cons in H. destruct (ascii_dec c d) as [<-|]; [|discriminate].
    destruct (IH _ H) as [z ->]. now exists z.
Qed.

Lemma contains_middle (x a b y : string) :
  Py.contains (x ++ (a ++ b) ++ y) a = true.
Proof. apply contains_app_r. rewrite append_assoc. apply contains_head. Qed.

Lemma prefix_app_l (sub s b : string) :
  String.prefix sub s = true -> String.prefix sub (s ++ b) = true.
Proof.
  intros H. destruct (prefix_app_inv _ _ H) as [z ->].
  rewrite append_assoc. apply prefix_app.
Qed.

Lemma contains_app_l (a b sub : string) :
  Py.contains a sub = true -> Py.contains (a ++ b) sub = true.
Proof.
  induction a as [|c a IH]; rewrite contains_unfold.
  - destruct (String.prefix sub "") eqn:E; [|discriminate].
    intros _. rewrite contains_unfold. now rewrite (prefix_app_l _ _ b E).
  - destruct (String.prefix sub (String c a)) eqn:E.
    + intros _. rewrite contains_unfold. now rewrite (prefix_app_l _ _ b E).
    + intros H. rewrite append_cons, contains_unfold, (IH H).
      now destruct (String.prefix sub (String c (a ++ b))).
Qed.

(** What the message contains, the error page contains. *)
Lemma error_page_contains (path msg sub : string) :
  Py.contains msg sub = true -> Py.contains (error_page path msg) sub = true.
Proof.
  intros H. unfold error_page. do 12 apply contains_app_r.
  now apply contains_app_l.
Qed.

Lemma length_append (a b : string) :
  String.length (a ++ b) = (String.length a + String.length b)%nat.
Proof.
  induction a as [|c a IH]; [reflexivity|].
  rewrite append_cons. cbn [String.length]. now rewrite IH.
Qed.

End PrefixFacts.

(** X16.  The error page for a regular file that cannot be read shows the
    path of the file on disk, and with it the working directory of the
    server: unlike the not-found page, it names more than was requested. *)
Theorem X16_unreadable_file_page_shows_the_directory
    (os : OS) (h0 : Handler) (msg : string) :
  let h := decode os h0 in
  path_exists os (full_path h) = true ->
  path_isfile os (full_path h) = true ->
  Py.endswith (full_path h) ".py" = false ->
  read_bytes os (full_path h) = Err msg ->
  exists r,
    do_GET os h0 = ([r], inr tt)
    /\ status r = 404
    /\ Py.contains (body r) (full_path h) = true
    /\ Py.contains (body r) (getcwd os) = true.
Proof.
  intros h Hex Hfile Hpy Hread.
  rewrite (do_GET_static os h0 Hex Hfile Hpy). fold h.
  rewrite (handle_file_unreadable os h _ _ Hread).
  eexists. split; [reflexivity|]. split; [reflexivity|].
  cbn [body]. split; apply error_page_contains.
  - apply contains_app_r, contains_head.
  - destruct (prefix_app_inv _ _ (full_path_startswith_cwd os h0)) as [z Hz].
    fold h in Hz. rewrite Hz. apply contains_middle.
Qed.

(** X16 at work: [/locked] of the site. *)
Lemma X16_witness_locked :
  exists r,
    do_GET Site.os (request "/locked") = ([r], inr tt)
    /\ status r = 404
    /\ Py.contains (body r) "/srv/www/locked" = true
    /\ Py.contains (body r) "/srv/www" = true.
Proof.
  exact (X16_unreadable_file_page_shows_the_directory Site.os (request "/locked")
           (EACCES "/srv/www/locked") eq_refl eq_refl eq_refl eq_refl).
Defined.

Section ParentFacts.

Lemma rstrip_unfold (c a : ascii) (t : string) :
  Py.rstrip c (String a t)
  = if Ascii.eqb a c && String.eqb (Py.rstrip c t) "" then ""
    else String a (Py.rstrip c t).
Proof. reflexivity. Qed.

(** Stripping leaves a prefix. *)
Lemma rstrip_app (c : ascii) (s : string) : exists z, s = Py.rstrip c s ++ z.
Proof.
  induction s as [|a t [z IH]]; [now exists ""|].
  rewrite rstrip_unfold.
  destruct (Ascii.eqb a c && String.eqb (Py.rstrip c t) "").
  - now exists (String a t).
  - exists z. now rewrite append_cons, <- IH.
Qed.

(** What is left after stripping does not end in the stripped
    character. *)
Lemma rstrip_no_trailing (s : string) :
  Py.endswith (Py.rstrip "/" s) "/" = false.
Proof.
  induction s as [|a t IH]; [reflexivity|].
  rewrite rstrip_unfold.
  destruct (Ascii.eqb_spec a "/") as [->|Ha];
    destruct (String.eqb_spec (Py.rstrip "/" t) "") as [E|E]; cbn [andb];
    try reflexivity; rewrite endswith_unfold, IH.
  - destruct (String.eqb_spec (String "/" (Py.rstrip "/" t)) "/") as [[=]|_];
      [congruence | reflexivity].
  - destruct (String.eqb_spec (String a (Py.rstrip "/" t)) "/") as [[=]|_];
      [congruence | reflexivity].
  - destruct (String.eqb_spec (String a (Py.rstrip "/" t)) "/") as [[=]|_];
      [congruence | reflexivity].
Qed.

Lemma upto_last_sep_unfold (a : ascii) (t : string) :
  Py.upto_last_sep (String a t)
  = if negb (String.eqb (Py.upto_last_sep t) "") then String a (Py.upto_last_sep t)
    else if Ascii.eqb a "/" then "/" else "".
Proof. reflexivity. Qed.

Lemma upto_last_sep_app (p : string) : exists z, p = Py.upto_last_sep p ++ z.
Proof.
  induction p as [|a t [z IH]]; [now exists ""|].
  rewrite upto_last_sep_unfold.
  destruct (negb (String.eqb (Py.upto_last_sep t) "")).
  - exists z. now rewrite append_cons, <- IH.
  - destruct (Ascii.eqb_spec a "/") as [->|_].
    + now exists t.
    + now exists (String a t).
Qed.

(** The part up to the last separator is the whole only of a path that
    ends in a separator, or is empty. *)
Lemma upto_last_sep_whole (p : string) :
  Py.upto_last_sep p = p -> p = "" \/ Py.endswith p "/" = true.
Proof.
  induction p as [|a t IH]; [now left|].
  rewrite upto_last_sep_unfold. intros H. right. revert H.
  destruct (String.eqb_spec (Py.upto_last_sep t) "") as [E|E]; cbn [negb].
  - destruct (Ascii.eqb_spec a "/") as [->|_]; [|discriminate].
    now intros [= <-].
  - intros [= Ht]. destruct (IH Ht) as [->|Hend]; [now rewrite Ht in E|].
    rewrite endswith_unfold, Hend. now destruct (String.eqb (String a t) "/").
Qed.

Lemma upto_last_sep_rooted (t : string) : Py.upto_last_sep (String "/" t) <> "".
Proof.
  rewrite upto_last_sep_unfold.
  now destruct (negb (String.eqb (Py.upto_last_sep t) "")).
Qed.

Lemma append_nil_r (s : string) : s ++ "" = s.
Proof. induction s as [|c s IH]; [reflexivity|]. now rewrite append_cons, IH. Qed.

(** [dirname] of a path that begins with a separator and does not end in
    one: a nonempty, strictly shorter prefix. *)
Lemma dirname_rooted (t : string) :
  Py.endswith (String "/" t) "/" = false ->
  exists z, String "/" t = Py.dirname (String "/" t) ++ z
            /\ z <> "" /\ Py.dirname (String "/" t) <> "".
Proof.
  intros Hend. unfold Py.dirname.
  pose proof (upto_last_sep_rooted t) as Hne.
  destruct (upto_last_sep_app (String "/" t)) as [z Hz].
  assert (Hz0 : z <> "").
  { intros ->. rewrite append_nil_r in Hz. symmetry in Hz.
    destruct (upto_last_sep_whole _ Hz); congruence. }
  set (head := Py.upto_last_sep (String "/" t)) in *.
  destruct (String.eqb_spec head "") as [E|_]; [congruence|]. cbn [negb andb].
  destruct (String.eqb_spec (Py.rstrip "/" head) "") as [E|E]; cbn [negb].
  - exists z. now repeat split.
  - destruct (rstrip_app "/" head) as [z' Hz'].
    exists (z' ++ z). repeat split; [|destruct z'; [exact Hz0 | discriminate] | exact E].
    now rewrite <- append_assoc, <- Hz'.
Qed.

End ParentFacts.

(** X17.  The parent link of a listing leads upwards: for a request path
    that begins with a separator and is not ["/"], its target begins with a
    separator, is a prefix of the request path and is strictly shorter, so
    that following parent links ends at ["/"]. *)
Theorem X17_parent_link_leads_upwards (path : string) :
  Py.startswith path "/" = true ->
  path <> "/" ->
  exists parent : string,
    parent_item path
    = "<li><a href=" ++ quote ++ parent ++ quote ++ ">../</a></li>"
    /\ Py.startswith parent "/" = true
    /\ Py.startswith path parent = true
    /\ (String.length parent < String.length path)%nat.
Proof.
  intros Hroot Hne. unfold parent_item.
  destruct (startswith_sep_inv _ Hroot) as [t ->].
  destruct (rstrip_app "/" (String "/" t)) as [z1 Hz1].
  pose proof (rstrip_no_trailing (String "/" t)) as Hend.
  destruct (Py.rstrip "/" (String "/" t)) as [|a x] eqn:Ex.
  - (* the path is made of separators only *)
    exists "/". split; [reflexivity|]. split; [reflexivity|].
    split; [apply startswith_sep_cons|].
    destruct t; [congruence | cbn [String.length]; clear; lia].
  - assert (a = "/"%char) as -> by (rewrite append_cons in Hz1; congruence).
    destruct (dirname_rooted x Hend) as (z2 & Hz2 & Hz2ne & Hd).
    set (parent := Py.dirname (String "/" x)) in *.
    exists parent.
    split; [now destruct (String.eqb_spec parent "")|].
    assert (Hlen : (String.length parent < String.length (String "/" t))%nat).
    { rewrite Hz1, Hz2, !length_append.
      destruct z2; [congruence | cbn [String.length]; clear; lia]. }
    split; [|split; [|exact Hlen]].
    + destruct parent as [|d w]; [congruence|].
      rewrite append_cons in Hz2. injection Hz2 as <- _.
      apply startswith_sep_cons.
    + unfold Py.startswith. rewrite Hz1, Hz2, append_assoc. apply prefix_app.
Qed.

(** X17 at work: from a directory two levels down, with a trailing
    separator. *)
Lemma X17_witness_two_levels :
  exists parent : string,
    parent_item "/Docs/api/"
    = "<li><a href=" ++ quote ++ parent ++ quote ++ ">../</a></li>"
    /\ Py.startswith parent "/" = true
    /\ Py.startswith "/Docs/api/" parent = true
    /\ (String.length parent < String.length "/Docs/api/")%nat.
Proof.
  apply (X17_parent_link_leads_upwards "/Docs/api/"); [reflexivity | discriminate].
Defined.

(** X18.  Whatever a script prints, and whatever becomes of it, the answer
    to a request whose decoded path ends in [.py] is labelled [text/html]:
    the label comes from the request path, and [.py] is not in the table. *)
Theorem X18_script_answers_are_labelled_html (os : OS) (h0 : Handler) :
  Py.endswith (Py.unquote (path h0)) ".py" = true ->
  exists r,
    do_GET os h0 = ([r], inr tt)
    /\ headers r
       = [("Content-Type", "text/html");
          ("Content-Length", Py.str (Py.len (body r)))].
Proof.
  intros Hpy.
  destruct (do_GET_answers os h0) as (content & st & -> & _).
  eexists. split; [reflexivity|].
  cbn [headers body send_content write fst].
  change (path (decode os h0)) with (Py.unquote (path h0)).
  assert (X : forall b, Py.endswith ".py" b = false -> Py.endswith b ".py" = false ->
                        Py.endswith (Py.unquote (path h0)) b = false)
    by (intros b H1 H2; now apply (endswith_exclusive _ ".py" b)).
  unfold content_type, Py.endswith_any. cbn [existsb].
  now rewrite (X ".html"), (X ".htm"), (X ".css"), (X ".js"), (X ".json"),
    (X ".jpg"), (X ".jpeg"), (X ".png"), (X ".gif") by reflexivity.
Qed.

(** X18 at work: [/time.py] of the site. *)
Lemma X18_witness_time_py :
  exists r,
    do_GET Site.os (request "/time.py") = ([r], inr tt)
    /\ headers r
       = [("Content-Type", "text/html");
          ("Content-Length", Py.str (Py.len (body r)))].
Proof.
  exact (X18_script_answers_are_labelled_html Site.os (request "/time.py") eq_refl).
Defined.
